(** * Meta-Everything Agent: step budget, urgency tiers and prompt regeneration

  A shallow embedding of [prompts.py] (the system-prompt renderer) and of
  the [MetaEverythingAgent] class of [agent.py] (construction, the
  per-turn driver [__call__], [_initialize_context], [reset] and
  [get_execution_summary]), followed by the properties of the step
  counters, of the urgency tiers and of the regenerated system prompt.

  Python values are modelled as follows.
  - [int] is [Z] (unbounded).
  - [str] is [string], the UTF-8 bytes of the text; the three arrow
    characters of the template are kept as their bytes.
  - [Optional[T]] is [option T]; Python truthiness of an optional string
    or list is [truthy] / [truthy_list].
  - The base class [strands.Agent], the tool objects and the memory tool
    are external collaborators: they are the fields of the class
    [Collaborators], and their state is an abstract [World]. *)

From Stdlib Require Import ZArith String Ascii List Bool Lia DecimalString.
From Stdlib Require QArith_base.
Import ListNotations.

Local Open Scope Z_scope.
Local Open Scope string_scope.

(** ** The Python [str] and [int] primitives the code uses *)

Module Py.

(** The double-quote character and the line feed, as one-character texts. *)
Definition dq : string := String "034"%char EmptyString.
Definition nl : string := String "010"%char EmptyString.

(** [str(n)] and the [{n}] replacement field for an [int]: decimal digits,
    a leading minus sign for negative numbers. *)
Definition str_of_int (n : Z) : string := NilZero.string_of_int (Z.to_int n).

(** [str.upper()], on the ASCII letters: [server_type] is ["remote"] or
    ["local"] on every path of the repository (the command line restricts it
    to these two); bytes outside [a-z] are left as they are.  It is what
    [str.upper()] computes on texts of ASCII characters; what is stated
    about an upper-cased text is stated for such texts. *)
Definition upper_ascii (c : ascii) : ascii :=
  let n := nat_of_ascii c in
  if ((97 <=? n) && (n <=? 122))%nat then ascii_of_nat (n - 32) else c.

Fixpoint upper (s : string) : string :=
  match s with
  | EmptyString => EmptyString
  | String c s' => String (upper_ascii c) (upper s')
  end.

(** [sep.join(parts)]. *)
Definition join (sep : string) (parts : list string) : string :=
  String.concat sep parts.

(** Truthiness of [Optional[str]]: neither [None] nor the empty text. *)
Definition truthy (o : option string) : bool :=
  match o with
  | Some s => negb (s =? EmptyString)
  | None => false
  end.

(** Truthiness of [Optional[List]]: neither [None] nor the empty list. *)
Definition truthy_list {A : Type} (o : option (list A)) : bool :=
  match o with
  | Some (_ :: _) => true
  | _ => false
  end.

(** [needle in text]: the text has the needle as a contiguous part. *)
Definition contains (needle text : string) : Prop :=
  exists before after : string, text = before ++ needle ++ after.

End Py.

(** ** [prompts.py] *)

Module prompts.
Import Py.

(** Line 26: [remaining_steps = max_steps - current_step]. *)
Definition remaining_of (max_steps current_step : Z) : Z :=
  max_steps - current_step.

(** Line 27: the conditional expression that names the urgency tier. *)
Definition urgency_of (remaining_steps : Z) : string :=
  if (remaining_steps <? 3)%Z then "HIGH"
  else if (remaining_steps <? 7)%Z then "MEDIUM"
  else "LOW".

(** Lines 29-34: the model settings quoted in the swarm usage example. *)
Definition swarm_config_of (server_type : string) : string :=
  if server_type =? "local" then
    "model_provider=" ++ dq ++ "ollama" ++ dq ++ "," ++ nl ++
    "    model_settings={" ++ dq ++ "model_id" ++ dq ++ ": " ++ dq ++ "llama3.2:3b" ++ dq ++ ", "
      ++ dq ++ "host" ++ dq ++ ": " ++ dq ++ "http://localhost:11434" ++ dq ++ "},"
  else
    "model_provider=" ++ dq ++ "bedrock" ++ dq ++ "," ++ nl ++
    "    model_settings={" ++ dq ++ "model_id" ++ dq ++ ": " ++ dq
      ++ "us.anthropic.claude-3-7-sonnet-20250219-v1:0" ++ dq ++ "},".

(** Line 36: the optional tool inventory line. *)
Definition tools_context_of (tools_available : option string) : string :=
  match tools_available with
  | Some t =>
      if truthy tools_available then nl ++ "- Available Tools: " ++ t
      else EmptyString
  | None => EmptyString
  end.

(** Line 156: the advice that follows the urgency tier. *)
Definition urgency_guidance (urgency : string) : string :=
  if urgency =? "HIGH" then "Complete core objectives immediately"
  else if urgency =? "MEDIUM" then "Balance thoroughness with efficiency"
  else "Explore comprehensively".

(** Lines 38-233: the template, one definition per top-level tag, each a
    list of lines; doubled braces of the f-string are single braces of the
    text. *)

Definition role_block : list string :=
  [ "<role>"
  ; "You are Meta-Everything Agent, an advanced autonomous problem-solving system implementing metacognitive reasoning with continuous self-assessment and adaptation. You systematically tackle any challenge through intelligent tool selection, dynamic capability creation, and cross-session learning."
  ; "</role>"
  ].

Definition mission_parameters_block (objective : string)
    (current_step max_steps remaining_steps : Z)
    (urgency server_type tools_context : string) : list string :=
  [ "<mission_parameters>"
  ; "- Objective: " ++ objective
  ; "- Current Step: " ++ str_of_int current_step ++ "/" ++ str_of_int max_steps
  ; "- Remaining Steps: " ++ str_of_int remaining_steps
  ; "- Urgency Level: " ++ urgency
  ; "- Server Type: " ++ upper server_type
  ; "- Memory System: ENABLED" ++ tools_context
  ; "</mission_parameters>"
  ].

Definition cognitive_architecture_block : list string :=
  [ "<cognitive_architecture>"
  ; "## Memory Systems"
  ; "- Working Memory: Current problem state and active operations"
  ; "- Episodic Memory: Past experiences stored via mem0_memory with user_id=" ++ dq ++ "meta_agent" ++ dq
  ; "- Semantic Memory: Domain knowledge and learned patterns (LLM knowledge + stored insights)"
  ; "- Procedural Memory: Tool registry + dynamic tool creation capability"
  ; "</cognitive_architecture>"
  ].

Definition meta_capabilities_block (swarm_config : string) : list string :=
  [ "<meta_capabilities>"
  ; "## 1. META-AGENT (Dynamic Agent Spawning)"
  ; "Deploy specialized agents for complex subtasks:"
  ; EmptyString
  ; "**Task Format (KEEP CONCISE - Max 120 words):**"
  ; "```"
  ; "FIRST ACTION: mem0_memory(action=" ++ dq ++ "list" ++ dq ++ ", user_id=" ++ dq ++ "meta_agent" ++ dq ++ ") to retrieve all past findings"
  ; "CONTEXT: [What has been done: tools used, solutions found, progress made]"
  ; "OBJECTIVE: [ONE specific goal, not general exploration]"
  ; "AVOID: [List what NOT to repeat based on memory retrieval]"
  ; "FOCUS: [Specific area/technique to explore]"
  ; "SUCCESS: [Clear, measurable outcome]"
  ; "```"
  ; EmptyString
  ; "**CRITICAL: Each swarm agent MUST:**"
  ; "1. First retrieve memories with mem0_memory to understand completed work"
  ; "2. Analyze retrieved findings before taking any actions"
  ; EmptyString
  ; "**Usage Example:**"
  ; "```python"
  ; "swarm("
  ; "    task=f" ++ dq ++ "FIRST ACTION: mem0_memory(action='list', user_id='meta_agent')"
  ; "CONTEXT: Built basic API client, implemented GET/POST methods"
  ; "OBJECTIVE: Add authentication handling to existing API client"
  ; "AVOID: Re-implementing basic HTTP methods already completed"
  ; "FOCUS: OAuth2 and JWT authentication patterns"
  ; "SUCCESS: Working auth flow with token refresh capability" ++ dq ++ ","
  ; "    swarm_size=3,"
  ; "    coordination_pattern=" ++ dq ++ "collaborative" ++ dq ++ ","
  ; "    " ++ swarm_config
  ; "    tools=[" ++ dq ++ "shell" ++ dq ++ ", " ++ dq ++ "editor" ++ dq ++ ", " ++ dq ++ "load_tool" ++ dq ++ ", " ++ dq ++ "http_request" ++ dq ++ ", " ++ dq ++ "mem0_memory" ++ dq ++ "]"
  ; ")"
  ; "```"
  ; EmptyString
  ; "## 2. META-TOOLING (Runtime Tool Creation)"
  ; "Create tools when existing ones are insufficient:"
  ; "```python"
  ; "editor(action=" ++ dq ++ "create" ++ dq ++ ", path=" ++ dq ++ "tools/custom_tool.py" ++ dq ++ ", content=" ++ dq ++ "..." ++ dq ++ ")"
  ; "python_repl(code=" ++ dq ++ "test code" ++ dq ++ ")"
  ; "load_tool(path=" ++ dq ++ "tools/custom_tool.py" ++ dq ++ ")"
  ; "```"
  ; EmptyString
  ; "## 3. META-LEARNING (Cross-Session Knowledge)"
  ; "```python"
  ; "mem0_memory(action=" ++ dq ++ "retrieve" ++ dq ++ ", query=" ++ dq ++ "similar problem" ++ dq ++ ", user_id=" ++ dq ++ "meta_agent" ++ dq ++ ")"
  ; "mem0_memory("
  ; "    action=" ++ dq ++ "store" ++ dq ++ ","
  ; "    content=" ++ dq ++ "strategy: [what worked]" ++ dq ++ ","
  ; "    user_id=" ++ dq ++ "meta_agent" ++ dq ++ ","
  ; "    metadata={" ++ dq ++ "type" ++ dq ++ ": " ++ dq ++ "solution" ++ dq ++ ", " ++ dq ++ "domain" ++ dq ++ ": " ++ dq ++ "..." ++ dq ++ ", " ++ dq ++ "success" ++ dq ++ ": True}"
  ; ")"
  ; "```"
  ; EmptyString
  ; "## 4. META-COGNITION (Self-Reflection)"
  ; "Continuously assess and adapt:"
  ; "```python"
  ; "think("
  ; "    prompt=" ++ dq ++ "Analyze current approach" ++ dq ++ ","
  ; "    considerations=[" ++ dq ++ "confidence level" ++ dq ++ ", " ++ dq ++ "alternative strategies" ++ dq ++ ", " ++ dq ++ "tool requirements" ++ dq ++ "]"
  ; ")"
  ; "```"
  ; EmptyString
  ; "## 5. TIME AWARENESS (Temporal Context)"
  ; "Track time for scheduling, deadlines, and temporal analysis:"
  ; "```python"
  ; "current_time()"
  ; EmptyString
  ; "current_time(timezone=" ++ dq ++ "US/Pacific" ++ dq ++ ")"
  ; "current_time(timezone=" ++ dq ++ "Europe/London" ++ dq ++ ")"
  ; "current_time(timezone=" ++ dq ++ "Asia/Tokyo" ++ dq ++ ")"
  ; EmptyString
  ; "timestamp = current_time()"
  ; "mem0_memory("
  ; "    action=" ++ dq ++ "store" ++ dq ++ ","
  ; "    content=f" ++ dq ++ "Task completed at {timestamp}" ++ dq ++ ","
  ; "    user_id=" ++ dq ++ "meta_agent" ++ dq ++ ","
  ; "    metadata={" ++ dq ++ "timestamp" ++ dq ++ ": timestamp, " ++ dq ++ "type" ++ dq ++ ": " ++ dq ++ "completion" ++ dq ++ "}"
  ; ")"
  ; "```"
  ; "</meta_capabilities>"
  ].

Definition metacognitive_framework_block (current_step max_steps : Z)
    (urgency : string) : list string :=
  [ "<metacognitive_framework>"
  ; "## Confidence-Based Execution"
  ; "- **High Confidence (>80%)**: Direct execution with existing tools"
  ; "- **Medium Confidence (50-80%)**: Deep reflection, possible tool creation"
  ; "- **Low Confidence (<50%)**: Spawn expert agents, extensive memory search"
  ; EmptyString
  ; "## Adaptive Strategy Selection"
  ; "1. Assess problem complexity and domain"
  ; "2. Evaluate available tools and past experiences"
  ; "3. Select approach based on confidence:"
  ; "   - High → Specialized tools"
  ; "   - Medium → Create tools or parallel exploration"
  ; "   - Low → Multi-agent swarm deployment"
  ; EmptyString
  ; "## Step Budget Awareness"
  ; "- Current Progress: " ++ str_of_int current_step ++ "/" ++ str_of_int max_steps ++ " steps used"
  ; "- Urgency: " ++ urgency ++ " - " ++ urgency_guidance urgency
  ; "- If approaching limit: Summarize progress and call stop()"
  ; "</metacognitive_framework>"
  ].

Definition operational_protocols_block : list string :=
  [ "<operational_protocols>"
  ; "## Memory Protocol"
  ; "**MANDATORY**: Store insights after:"
  ; "- Successful problem solutions"
  ; "- Tool creation (with code and use case)"
  ; "- Failed attempts (with lessons learned)"
  ; "- Domain knowledge discoveries"
  ; "- Performance optimizations"
  ; EmptyString
  ; "Format:"
  ; "```python"
  ; "mem0_memory("
  ; "    action=" ++ dq ++ "store" ++ dq ++ ","
  ; "    content=" ++ dq ++ "[INSIGHT] [CONTEXT] [OUTCOME] [REUSABILITY]" ++ dq ++ ","
  ; "    user_id=" ++ dq ++ "meta_agent" ++ dq ++ ","
  ; "    metadata={" ++ dq ++ "type" ++ dq ++ ": " ++ dq ++ "tool|strategy|knowledge|failure" ++ dq ++ ", " ++ dq ++ "domain" ++ dq ++ ": " ++ dq ++ "..." ++ dq ++ ", " ++ dq ++ "confidence" ++ dq ++ ": " ++ dq ++ "X%" ++ dq ++ "}"
  ; ")"
  ; "```"
  ; EmptyString
  ; "## Swarm Deployment Protocol"
  ; "**Use when**: Problem requires multiple perspectives, parallel exploration, or specialized expertise"
  ; "**Configuration**: Always include mem0_memory in tools for knowledge sharing"
  ; "**Coordination**: Define clear roles and expected outputs for each agent"
  ; EmptyString
  ; "## Tool Creation Protocol"
  ; "1. Identify capability gap"
  ; "2. Design tool specification"
  ; "3. Implement with editor"
  ; "4. Test with python_repl"
  ; "5. Store tool and use case in memory"
  ; "6. Load and deploy"
  ; EmptyString
  ; "## Completion Protocol"
  ; "Call stop() when:"
  ; "- Objective is fully achieved"
  ; "- Unable to proceed (explain limitations)"
  ; "- Step budget approaching (summarize progress)"
  ; EmptyString
  ; "Format:"
  ; "```python"
  ; "stop(reason=" ++ dq ++ "Objective achieved: [specific outcome]" ++ dq ++ ")"
  ; "stop(reason=" ++ dq ++ "Cannot proceed: [specific limitation]" ++ dq ++ ")"
  ; "stop(reason=" ++ dq ++ "Step budget exhausted. Progress: [summary of achievements]" ++ dq ++ ")"
  ; "```"
  ; "</operational_protocols>"
  ].

Definition execution_patterns_block : list string :=
  [ "<execution_patterns>"
  ; "## Problem-Solving Flow"
  ; "1. **Initialize**: Check memory for similar problems"
  ; "2. **Analyze**: Understand requirements and constraints"
  ; "3. **Plan**: Select strategy based on confidence and remaining steps"
  ; "4. **Execute**: Implement with appropriate tools/agents"
  ; "5. **Reflect**: Assess outcomes and adapt if needed"
  ; "6. **Learn**: Store insights for future use"
  ; "7. **Complete**: Call stop() with clear outcome"
  ; EmptyString
  ; "## Dynamic Adaptation"
  ; "- Monitor progress continuously against step budget"
  ; "- Adjust strategy based on intermediate results"
  ; "- Create tools when patterns emerge"
  ; "- Spawn agents when complexity increases"
  ; "- Store all valuable insights"
  ; "</execution_patterns>"
  ].

Definition key_principles_block : list string :=
  [ "<key_principles>"
  ; "- **Unlimited Potential**: You can create any tool or capability needed"
  ; "- **Continuous Evolution**: Every problem makes you more capable"
  ; "- **Intelligent Adaptation**: Match approach to problem characteristics"
  ; "- **Persistent Learning**: Knowledge accumulates across sessions"
  ; "- **Autonomous Completion**: Self-determine when objectives are met"
  ; "- **Resource Awareness**: Work efficiently within step constraints"
  ; EmptyString
  ; "Remember: You are Meta-Everything Agent - a system that evolves beyond its initial capabilities. Through tool creation, agent orchestration, and persistent learning, you adapt to solve any challenge. Your growth is bounded only by imagination and the problems you encounter."
  ; "</key_principles>"
  ].


(** The lines of the rendered text: the eight blocks, separated by one empty
    line. *)
Definition prompt_lines
    (objective : string) (current_step max_steps : Z)
    (server_type : string) (tools_available : option string) : list string :=
  let remaining_steps := remaining_of max_steps current_step in
  let urgency := urgency_of remaining_steps in
  let swarm_config := swarm_config_of server_type in
  let tools_context := tools_context_of tools_available in
    (role_block
     ++ EmptyString
        :: mission_parameters_block objective current_step max_steps
             remaining_steps urgency server_type tools_context
     ++ EmptyString :: cognitive_architecture_block
     ++ EmptyString :: meta_capabilities_block swarm_config
     ++ EmptyString :: metacognitive_framework_block current_step max_steps urgency
     ++ EmptyString :: operational_protocols_block
     ++ EmptyString :: execution_patterns_block
     ++ EmptyString :: key_principles_block)%list.

(** [get_meta_system_prompt], lines 6-233; [server_type] defaults to
    ["remote"] and [tools_available] to [None]. *)
Definition get_meta_system_prompt
    (objective : string) (current_step max_steps : Z)
    (server_type : string) (tools_available : option string) : string :=
  join nl (prompt_lines objective current_step max_steps server_type tools_available).

(** Lines 237-242: the default prompt ([server_type] given, no tools). *)
Definition META_SYSTEM_PROMPT : string :=
  get_meta_system_prompt "General problem solving" 1 10 "remote" None.

End prompts.

(** ** [agent.py] *)

Module agent.
Import Py prompts.

(** What a Python call raises: an instance of [Exception], which an
    [except Exception] clause catches, or an instance of [BaseException]
    only ([KeyboardInterrupt], [SystemExit]), which it lets through. *)
Inductive raised (Exc BaseExc : Type) : Type :=
| Raise_Exception (e : Exc)
| Raise_BaseException (b : BaseExc).

Arguments Raise_Exception {Exc BaseExc} e.
Arguments Raise_BaseException {Exc BaseExc} b.

(** A tool object as line 118 looks at it: its [name] attribute when it has
    one, and its [str()]. *)
Record Tool : Type := mkTool {
  tool_name : option string;
  tool_str : string
}.

(** The records the module logger receives. *)
Inductive Level : Type := INFO | WARNING.

Definition LogRecord : Type := (Level * string)%type.

(** Everything outside the agent object: the state of the collaborators and
    the log. *)
Record Env (World : Type) : Type := mkEnv {
  world : World;
  log : list LogRecord
}.

Arguments mkEnv {World} world log.
Arguments world {World} e.
Arguments log {World} e.

(** The collaborators of the class: the ten built-in tool objects (lines
    61-72), the base class constructor and call, the memory tool called with
    [action="retrieve"], and [str()] of a caught exception.  A call takes the
    world and returns the new world with what it raised or returned.  The
    base constructor is given the system prompt; the base call reads the
    agent's system prompt and the turn message, and assigns none of the
    attributes of the subclass.  The model configuration and
    the keyword arguments handed through to the base class are part of the
    world. *)
Class Collaborators (World Exc BaseExc Memory Result : Type) : Type := {
  swarm : Tool;
  editor : Tool;
  load_tool : Tool;
  mem0_memory : Tool;
  think : Tool;
  python_repl : Tool;
  http_request : Tool;
  shell : Tool;
  current_time : Tool;
  stop : Tool;
  Agent_init : string -> World -> World * (raised Exc BaseExc + unit);
  Agent_call : string -> string -> World -> World * (raised Exc BaseExc + Result);
  mem0_memory_retrieve :
    string -> string -> World -> World * (raised Exc BaseExc + option (list Memory));
  str_of_Exc : Exc -> string
}.

(** The attributes of a [MetaEverythingAgent] object. *)
Record MetaEverythingAgent : Type := mkAgent {
  server_type : string;
  objective : option string;
  max_steps : Z;
  current_step : Z;
  tools_list : string;
  system_prompt : string;
  created_tools : list string;
  spawned_agents : list string;
  learning_count : Z
}.

Definition with_current_step (self : MetaEverythingAgent) (n : Z) : MetaEverythingAgent :=
  mkAgent (server_type self) (objective self) (max_steps self) n
    (tools_list self) (system_prompt self)
    (created_tools self) (spawned_agents self) (learning_count self).

Definition with_system_prompt (self : MetaEverythingAgent) (p : string) : MetaEverythingAgent :=
  mkAgent (server_type self) (objective self) (max_steps self) (current_step self)
    (tools_list self) p
    (created_tools self) (spawned_agents self) (learning_count self).

(** The dictionary [get_execution_summary] returns. *)
Record ExecutionSummary : Type := mkSummary {
  steps_taken : Z;
  tools_created : list string;
  agents_spawned : list string;
  learnings_stored : Z
}.

(** [tool.name if hasattr(tool, 'name') else str(tool)]. *)
Definition tool_label (tool : Tool) : string :=
  match tool_name tool with
  | Some n => n
  | None => tool_str tool
  end.

(** [yes s] when the optional text is truthy, [no] otherwise: the shape of
    [if objective: ... else: ...]. *)
Definition when_truthy {A : Type} (o : option string) (yes : string -> A) (no : A) : A :=
  match o with
  | Some s => if truthy o then yes s else no
  | None => no
  end.

(** [len(x)] under the guard [x and ...], which excludes [None]. *)
Definition len {A : Type} (o : option (list A)) : Z :=
  match o with
  | Some l => Z.of_nat (length l)
  | None => 0
  end.

(** Lines 164 and 166: the messages of a turn called without one. *)
Definition continuation_message (self : MetaEverythingAgent) : string :=
  "Continue working on the objective. This is step "
    ++ str_of_int (current_step self) ++ " of " ++ str_of_int (max_steps self) ++ ".".

Definition greeting_message : string := "How can I help you today?".

(** Lines 154-161: within the budget, a session with an objective renders its
    system prompt again from the counters it now has. *)
Definition refresh_system_prompt (self : MetaEverythingAgent) : MetaEverythingAgent :=
  when_truthy (objective self)
    (fun o =>
       if (current_step self <=? max_steps self)%Z then
         with_system_prompt self
           (get_meta_system_prompt o (current_step self) (max_steps self)
              (server_type self) (Some (tools_list self)))
       else self)
    self.

(** Lines 163-166: the message handed to the base call. *)
Definition turn_message (self : MetaEverythingAgent) (message : option string) : string :=
  match message with
  | Some m => m
  | None =>
      when_truthy (objective self) (fun _ => continuation_message self) greeting_message
  end.

(** [reset], lines 186-191. *)
Definition reset (self : MetaEverythingAgent) : MetaEverythingAgent :=
  mkAgent (server_type self) (objective self) (max_steps self) 0
    (tools_list self) (system_prompt self) [] [] 0.

(** [get_execution_summary], lines 193-200. *)
Definition get_execution_summary (self : MetaEverythingAgent) : ExecutionSummary :=
  mkSummary (current_step self) (created_tools self) (spawned_agents self)
    (learning_count self).

Declare Scope py_scope.
Delimit Scope py_scope with py.

Section Driver.

Context {World Exc BaseExc Memory Result : Type}.
Context {collab : Collaborators World Exc BaseExc Memory Result}.

(** Statements that may raise: they take the environment and return the new
    one with the exception or the value. *)
Definition M (A : Type) : Type := Env World -> Env World * (raised Exc BaseExc + A).

Definition ret {A : Type} (a : A) : M A := fun env => (env, inr a).

Definition bind {A B : Type} (c : M A) (k : A -> M B) : M B :=
  fun env =>
    match c env with
    | (env', inr a) => k a env'
    | (env', inl r) => (env', inl r)
    end.

(** A call of a collaborator: it changes the world and leaves the log. *)
Definition external {A : Type} (f : World -> World * (raised Exc BaseExc + A)) : M A :=
  fun env =>
    let '(w, r) := f (world env) in (mkEnv w (log env), r).

Definition logger_emit (level : Level) (msg : string) : M unit :=
  fun env => (mkEnv (world env) (log env ++ [(level, msg)]), inr tt).

(** [try: body  except Exception as e: handler e]: the handler runs in the
    environment the body left; what is not an [Exception] goes through. *)
Definition try_except_Exception {A : Type} (body : M A) (handler : Exc -> M A) : M A :=
  fun env =>
    match body env with
    | (env', inl (Raise_Exception e)) => handler e env'
    | other => other
    end.

Notation "x <- c ;; k" := (bind c (fun x => k))
  (at level 61, c at next level, right associativity) : py_scope.
Notation "c ;;; k" := (bind c (fun _ => k))
  (at level 61, right associativity) : py_scope.

Local Open Scope py_scope.

(** [_initialize_context], lines 172-184. *)
Definition _initialize_context (self : MetaEverythingAgent) (objective : string) : M unit :=
  try_except_Exception
    (memories <- external (mem0_memory_retrieve objective "meta_agent") ;;
     if truthy_list memories && (0 <? len memories)%Z then
       logger_emit INFO ("Found " ++ str_of_int (len memories) ++ " relevant memories")
     else ret tt)
    (fun e => logger_emit WARNING ("Memory initialization failed: " ++ str_of_Exc e)).

(** Lines 61-76: the built-in tools, then the caller's. *)
Definition meta_tools_of (additional_tools : option (list Tool)) : list Tool :=
  let meta_tools :=
    [swarm; editor; load_tool; mem0_memory; think; python_repl; http_request;
     shell; current_time; stop] in
  match additional_tools with
  | Some extra =>
      if truthy_list additional_tools then (meta_tools ++ extra)%list else meta_tools
  | None => meta_tools
  end.

(** [__init__], lines 39-143, with the arguments that reach the attributes:
    [server_type] (default ["remote"]), [objective] (default [None]),
    [max_steps] (default 10) and [additional_tools] (default [None]).  The
    choice of the model configuration (lines 78-112) only feeds the base
    constructor.  The keyword arguments carry no [system_prompt] entry, so
    line 129 takes its default text.  The base constructor stores the system
    prompt it is given in the attribute of that name. *)
Definition __init__ (server_type : string) (objective : option string)
    (max_steps : Z) (additional_tools : option (list Tool)) : M MetaEverythingAgent :=
  let tools_list := join ", " (map tool_label (meta_tools_of additional_tools)) in
  let system_prompt :=
    when_truthy objective
      (fun o => get_meta_system_prompt o 1 max_steps server_type (Some tools_list))
      "You are MetaAgent, an adaptive AI system." in
  external (Agent_init system_prompt) ;;;
  let self :=
    mkAgent server_type objective max_steps 0 tools_list system_prompt [] [] 0 in
  when_truthy objective
    (fun o => _initialize_context self o ;;; ret self)
    (ret self).

(** [__call__], lines 145-170.  The attributes are written before the base
    call, so the returned object carries them whether the base call returns
    or raises. *)
Definition __call__ (self : MetaEverythingAgent) (message : option string) (env : Env World)
    : MetaEverythingAgent * (Env World * (raised Exc BaseExc + Result)) :=
  let self := with_current_step self (current_step self + 1) in
  let self := refresh_system_prompt self in
  let message := turn_message self message in
  (self, external (Agent_call (system_prompt self) message) env).

(** A caller that invokes one turn per entry of [messages] ([None] for a
    turn without a message) and goes on whether a turn returned or raised. *)
Fixpoint turns (self : MetaEverythingAgent) (env : Env World) (messages : list (option string))
    : MetaEverythingAgent * Env World :=
  match messages with
  | [] => (self, env)
  | m :: rest =>
      let '(self', (env', _)) := __call__ self m env in turns self' env' rest
  end.

(** The states a session goes through from [(self0, env0)] by turns. *)
Inductive reachable (self0 : MetaEverythingAgent) (env0 : Env World)
    : MetaEverythingAgent -> Env World -> Prop :=
| reachable_start : reachable self0 env0 self0 env0
| reachable_turn (self : MetaEverythingAgent) (env : Env World) (message : option string) :
    reachable self0 env0 self env ->
    reachable self0 env0 (fst (__call__ self message env))
      (fst (snd (__call__ self message env))).

End Driver.

End agent.

(** ** A scripted world for the examples

    The memory store and the model are up or down; the world keeps the
    system prompt and the message of every base call it received. *)

Module Fixture.
Import Py prompts agent.

Record World : Type := mkWorld {
  store_up : bool;
  engine_up : bool;
  calls : list (string * string)
}.

Definition named (n : string) : Tool := mkTool (Some n) ("<tool " ++ n ++ ">").

Definition scripted_call (sp msg : string) (w : World)
    : World * (raised string unit + string) :=
  (mkWorld (store_up w) (engine_up w) (calls w ++ [(sp, msg)]),
   if engine_up w then inr "done" else inl (Raise_Exception "model unavailable")).

Definition scripted_retrieve (query user_id : string) (w : World)
    : World * (raised string unit + option (list string)) :=
  (w, if store_up w then inr (Some ["use the editor first"])
      else inl (Raise_Exception "store unavailable")).

#[export] Instance scripted : Collaborators World string unit string string := {|
  swarm := named "swarm";
  editor := named "editor";
  load_tool := named "load_tool";
  mem0_memory := named "mem0_memory";
  think := named "think";
  python_repl := named "python_repl";
  http_request := named "http_request";
  shell := named "shell";
  current_time := named "current_time";
  stop := named "stop";
  Agent_init := fun _ w => (w, inr tt);
  Agent_call := scripted_call;
  mem0_memory_retrieve := scripted_retrieve;
  str_of_Exc := fun e => e
|}.

Definition env_up : Env World := mkEnv (mkWorld true true []) [].
Definition env_store_down : Env World := mkEnv (mkWorld false true []) [].
Definition env_engine_down : Env World := mkEnv (mkWorld true false []) [].

(** The environment right after a construction in [env_up]. *)
Definition env_primed : Env World :=
  mkEnv (world env_up) [(INFO, "Found 1 relevant memories")].

(** The tool inventory of a session without additional tools, and the agent
    [MetaEverythingAgent(objective=o, max_steps=M)] is right after
    construction. *)
Definition tools_text : string := join ", " (map tool_label (meta_tools_of None)).

Definition session (o : string) (M : Z) : MetaEverythingAgent :=
  mkAgent "remote" (Some o) M 0 tools_text
    (get_meta_system_prompt o 1 M "remote" (Some tools_text)) [] [] 0.

End Fixture.

(** ** Measures used by the statements *)

Module Measures.
Import Py prompts.

(** The order of the tiers: LOW below MEDIUM below HIGH. *)
Definition tier_rank (urgency : string) : Z :=
  if urgency =? "HIGH" then 2
  else if urgency =? "MEDIUM" then 1
  else 0.


End Measures.

(** ** The model configuration of [agent.py] *)

Module configuration.
Import Py.

(** Lines 30-37. *)
Definition THINKING_MODELS : list string :=
  [ "us.anthropic.claude-opus-4-20250514-v1:0"
  ; "us.anthropic.claude-3-7-sonnet-20250219-v1:0"
  ; "us.anthropic.claude-sonnet-4-20250514-v1:0"
  ].

Definition DEFAULT_BEDROCK_MODEL : string := "us.anthropic.claude-3-7-sonnet-20250219-v1:0".

Definition DEFAULT_OLLAMA_MODEL : string := "llama3.2:3b".

(** The value [model_config] gets: the dictionary of lines 81-84, or the
    arguments of one of the two [BedrockModel(...)] calls.  The float
    literals are kept by their decimal value. *)
Inductive ModelConfig : Type :=
| OllamaSettings (model_id base_url : string)
| BedrockThinking (model_id region_name : string) (temperature : QArith_base.Q)
    (max_tokens : Z) (anthropic_beta : list string) (thinking_type : string)
    (budget_tokens : Z)
| BedrockSampling (model_id region_name : string) (temperature : QArith_base.Q)
    (max_tokens : Z) (top_p : QArith_base.Q).

(** [x or default] for an optional text. *)
Definition or_default (x : option string) (default : string) : string :=
  match x with
  | Some s => if truthy x then s else default
  | None => default
  end.

(** [model_id in THINKING_MODELS]. *)
Definition is_thinking_model (model_id : string) : bool :=
  existsb (String.eqb model_id) THINKING_MODELS.

(** Lines 78-112 of [__init__]; [OLLAMA_HOST] is the value of that
    environment variable, if it is set. *)
Definition model_config_of (model_id : option string) (server_type : string)
    (thinking : bool) (OLLAMA_HOST : option string) : ModelConfig :=
  if server_type =? "local" then
    let model_id := or_default model_id DEFAULT_OLLAMA_MODEL in
    OllamaSettings model_id
      (match OLLAMA_HOST with
       | Some host => host
       | None => "http://localhost:11434"
       end)
  else
    let model_id := or_default model_id DEFAULT_BEDROCK_MODEL in
    let supports_thinking := is_thinking_model model_id && thinking in
    if supports_thinking then
      BedrockThinking model_id "us-east-1" (QArith_base.Qmake 1 1) 4026
        ["interleaved-thinking-2025-05-14"] "enabled" 8000
    else
      BedrockSampling model_id "us-east-1" (QArith_base.Qmake 95 100) 4096
        (QArith_base.Qmake 95 100).

(** The model the configuration names. *)
Definition configured_model (config : ModelConfig) : string :=
  match config with
  | OllamaSettings model_id _ => model_id
  | BedrockThinking model_id _ _ _ _ _ _ => model_id
  | BedrockSampling model_id _ _ _ _ => model_id
  end.

(** Whether the configuration turns interleaved thinking on. *)
Definition has_thinking (config : ModelConfig) : bool :=
  match config with
  | BedrockThinking _ _ _ _ _ _ _ => true
  | _ => false
  end.

End configuration.

(** ** [main.py] *)

Module main.
Import Py prompts agent configuration.

(** [str.lower()] and [str.capitalize()], on the ASCII letters. *)
Definition lower_ascii (c : ascii) : ascii :=
  let n := nat_of_ascii c in
  if ((65 <=? n) && (n <=? 90))%nat then ascii_of_nat (n + 32) else c.

Fixpoint lower (s : string) : string :=
  match s with
  | EmptyString => EmptyString
  | String c s' => String (lower_ascii c) (lower s')
  end.

Definition capitalize (s : string) : string :=
  match s with
  | EmptyString => EmptyString
  | String c s' => String (upper_ascii c) (lower s')
  end.

(** [s * n]. *)
Fixpoint repeat_text (s : string) (n : nat) : string :=
  match n with
  | O => EmptyString
  | S n' => s ++ repeat_text s n'
  end.

(** The namespace [parse_args] returns (lines 63-113); [--server] is
    restricted to "remote" and "local" and defaults to "remote", [--steps]
    defaults to 10. *)
Record Args : Type := mkArgs {
  arg_objective : string;
  arg_model : option string;
  arg_server : string;
  arg_steps : Z;
  arg_no_thinking : bool;
  arg_memory_path : option string;
  arg_verbose : bool;
  arg_no_memory : bool
}.

(** The records of the logger of [main.py], with the [exc_info] flag. *)
Inductive MainLevel : Type := MAIN_INFO | MAIN_ERROR.

Record MainRecord : Type := mkMainRecord {
  record_level : MainLevel;
  record_message : string;
  record_exc_info : bool
}.

(** The levels [setup_logging] sets. *)
Inductive LoggingLevel : Type := DEBUG_LEVEL | INFO_LEVEL.

(** What a run of [main] acts on: the environment of the agent, the texts
    printed (one per [print] call, without the line end [print] adds), the
    records of its own logger, the levels set on named loggers and the
    environment variables assigned. *)
Record Process (World : Type) : Type := mkProcess {
  env : Env World;
  stdout : list string;
  main_log : list MainRecord;
  levels : list (string * LoggingLevel);
  environ : list (string * string)
}.

Arguments mkProcess {World} env stdout main_log levels environ.
Arguments env {World} p.
Arguments stdout {World} p.
Arguments main_log {World} p.
Arguments levels {World} p.
Arguments environ {World} p.

(** How a run of [main] ends: it returns, [sys.exit(code)] ends it, or
    something neither [except] clause catches goes through. *)
Inductive Finish (BaseExc : Type) : Type :=
| Returned
| SysExit (code : Z)
| Uncaught (b : BaseExc).

Arguments Returned {BaseExc}.
Arguments SysExit {BaseExc} code.
Arguments Uncaught {BaseExc} b.

(** What [main] uses beside the agent: [initialize_memory_system], given the
    path of the vector store or [None]; the test for [KeyboardInterrupt];
    [str()] and the truth value of the result of a turn. *)
Class MainCollaborators (World Exc BaseExc Result : Type) : Type := {
  initialize_memory_system :
    option string -> World -> World * (raised Exc BaseExc + unit);
  is_KeyboardInterrupt : BaseExc -> bool;
  str_of_Result : Result -> string;
  truthy_Result : Result -> bool
}.

(** Lines 154-167: the message of the one turn [main] runs. *)
Definition initial_message (args : Args) : string :=
  join nl
    [ "You have been given the following objective: " ++ arg_objective args
    ; EmptyString
    ; "You have up to " ++ str_of_int (arg_steps args)
        ++ " steps to complete this objective. You are currently on step 1."
    ; EmptyString
    ; "Please work autonomously to complete the objective. When you have successfully completed the objective or determined it cannot be completed, use the stop() tool with an appropriate reason."
    ; EmptyString
    ; "Remember:"
    ; "- Check memory for relevant past experiences"
    ; "- Use available tools effectively"
    ; "- Create new tools if needed"
    ; "- Store learnings for future use"
    ; "- Call stop() when the objective is complete"
    ; EmptyString
    ; "Begin working on the objective now."
    ].

(** Line 131. *)
Definition display_model (args : Args) : string :=
  or_default (arg_model args)
    (if arg_server args =? "remote" then DEFAULT_BEDROCK_MODEL
     else DEFAULT_OLLAMA_MODEL).

(** Lines 143-150: the banner. *)
Definition banner (args : Args) : list string :=
  [ nl ++ repeat_text "=" 60
  ; "Objective: " ++ arg_objective args
  ; "Server: " ++ capitalize (arg_server args)
  ; "Model: " ++ display_model args
  ; "Max Steps: " ++ str_of_int (arg_steps args)
  ; "Thinking: "
      ++ (if negb (arg_no_thinking args) && (arg_server args =? "remote")
          then "Enabled" else "Disabled")
  ; "Memory: " ++ (if negb (arg_no_memory args) then "Enabled" else "Disabled")
  ; repeat_text "=" 60 ++ nl
  ].

(** Lines 171-184: the report of the summary. *)
Definition report (summary : ExecutionSummary) : list string :=
  let head :=
    [ nl ++ repeat_text "=" 60
    ; "Execution Complete!"
    ; repeat_text "=" 60
    ; "Steps taken: " ++ str_of_int (steps_taken summary)
    ; "Tools created: " ++ str_of_int (Z.of_nat (length (tools_created summary)))
    ] in
  let tools := map (fun tool => "  - " ++ tool) (tools_created summary) in
  let spawned :=
    [ "Agents spawned: " ++ str_of_int (Z.of_nat (length (agents_spawned summary))) ] in
  let agents := map (fun agent_info => "  - " ++ agent_info) (agents_spawned summary) in
  let foot :=
    [ "Learnings stored: " ++ str_of_int (learnings_stored summary)
    ; repeat_text "=" 60 ++ nl
    ] in
  (head ++ tools ++ spawned ++ agents ++ foot)%list.

Section Main.

Context {World Exc BaseExc Memory Result : Type}.
Context {collab : Collaborators World Exc BaseExc Memory Result}.
Context {main_collab : MainCollaborators World Exc BaseExc Result}.

(** Statements of [main] that may raise. *)
Definition P (A : Type) : Type :=
  Process World -> Process World * (raised Exc BaseExc + A).

Definition pret {A : Type} (a : A) : P A := fun p => (p, inr a).

Definition pbind {A B : Type} (c : P A) (k : A -> P B) : P B :=
  fun p =>
    match c p with
    | (p', inr a) => k a p'
    | (p', inl r) => (p', inl r)
    end.

(** A statement of the agent, run on the environment of the process. *)
Definition in_env {A : Type} (c : M A) : P A :=
  fun p =>
    let '(e, r) := c (env p) in
    (mkProcess e (stdout p) (main_log p) (levels p) (environ p), r).

(** [print(text)], and several in a row. *)
Definition print (text : string) : P unit :=
  fun p =>
    (mkProcess (env p) (stdout p ++ [text]) (main_log p) (levels p) (environ p),
     inr tt).

Definition print_all (texts : list string) : P unit :=
  fun p =>
    (mkProcess (env p) (stdout p ++ texts) (main_log p) (levels p) (environ p),
     inr tt).

Definition main_emit (level : MainLevel) (msg : string) (exc_info : bool) : P unit :=
  fun p =>
    (mkProcess (env p) (stdout p)
       (main_log p ++ [mkMainRecord level msg exc_info]) (levels p) (environ p),
     inr tt).

(** [agent(message)]: the agent object after the turn comes with the
    result. *)
Definition agent_turn (self : MetaEverythingAgent) (message : option string)
    : P (MetaEverythingAgent * Result) :=
  fun p =>
    let '(self', (e, r)) := __call__ self message (env p) in
    (mkProcess e (stdout p) (main_log p) (levels p) (environ p),
     match r with
     | inr result => inr (self', result)
     | inl raised_object => inl raised_object
     end).

Notation "x <- c ;; k" := (pbind c (fun x => k))
  (at level 61, c at next level, right associativity) : py_scope.
Notation "c ;;; k" := (pbind c (fun _ => k))
  (at level 61, right associativity) : py_scope.

Local Open Scope py_scope.

(** [setup_logging], lines 29-36. *)
Definition setup_logging (verbose : bool) (p : Process World) : Process World :=
  let level := if verbose then DEBUG_LEVEL else INFO_LEVEL in
  mkProcess (env p) (stdout p) (main_log p)
    (levels p ++ [("strands", level); ("meta_agent", level)]) (environ p).

(** Lines 119-190: the body of the [try]. *)
Definition main_try (args : Args) : P unit :=
  (if negb (arg_no_memory args) then
     let memory_config :=
       if truthy (arg_memory_path args) then arg_memory_path args else None in
     in_env (external (initialize_memory_system memory_config))
   else pret tt) ;;;
  main_emit MAIN_INFO
    ("Initializing Meta-Everything Agent with model: " ++ display_model args) false ;;;
  agent <- in_env (__init__ (arg_server args) (Some (arg_objective args))
                     (arg_steps args) None) ;;
  main_emit MAIN_INFO ("Starting objective: " ++ arg_objective args) false ;;;
  print_all (banner args) ;;;
  print (nl ++ "Meta-Everything Agent is working..." ++ nl) ;;;
  turn <- agent_turn agent (Some (initial_message args)) ;;
  let '(agent, result) := turn in
  let summary := get_execution_summary agent in
  print_all (report summary) ;;;
  if truthy_Result result then
    print_all
      [ "Final Result:"
      ; repeat_text "-" 60
      ; str_of_Result result
      ; repeat_text "-" 60
      ]
  else pret tt.

(** [main], lines 113-197, from the parsed arguments on. *)
Definition main (args : Args) (p : Process World) : Process World * Finish BaseExc :=
  let p := setup_logging (arg_verbose args) p in
  let p :=
    mkProcess (env p) (stdout p) (main_log p) (levels p)
      (("BYPASS_TOOL_CONSENT", "true") :: environ p) in
  match main_try args p with
  | (p', inr _) => (p', Returned)
  | (p', inl (Raise_BaseException b)) =>
      if is_KeyboardInterrupt b then
        (fst (main_emit MAIN_INFO "Execution interrupted by user" false p'), SysExit 1)
      else (p', Uncaught b)
  | (p', inl (Raise_Exception e)) =>
      (fst (main_emit MAIN_ERROR ("Error during execution: " ++ str_of_Exc e)
              (arg_verbose args) p'),
       SysExit 1)
  end.

End Main.

End main.

(** ** The scripted world for [main] *)

Module MainFixture.
Import Py prompts agent Fixture configuration main.

#[export] Instance scripted_main : MainCollaborators World string unit string := {|
  initialize_memory_system := fun _ w => (w, inr tt);
  is_KeyboardInterrupt := fun _ => true;
  str_of_Result := fun result => result;
  truthy_Result := fun result => negb (result =? EmptyString)
|}.

(** A process that has done nothing yet, in the given environment. *)
Definition fresh (e : Env World) : Process World := mkProcess e [] [] [] [].

(** [python main.py objective] with every option at its default. *)
Definition plain_args (objective : string) : Args :=
  mkArgs objective None "remote" 10 false None false false.

End MainFixture.

(** ** A world whose base constructor fails *)

Module FixtureDown.
Import Py prompts agent Fixture.

Definition base_down : Collaborators World string unit string string := {|
  swarm := named "swarm";
  editor := named "editor";
  load_tool := named "load_tool";
  mem0_memory := named "mem0_memory";
  think := named "think";
  python_repl := named "python_repl";
  http_request := named "http_request";
  shell := named "shell";
  current_time := named "current_time";
  stop := named "stop";
  Agent_init := fun _ w => (w, inl (Raise_Exception "no credentials"));
  Agent_call := scripted_call;
  mem0_memory_retrieve := scripted_retrieve;
  str_of_Exc := fun e => e
|}.

End FixtureDown.

(** ** The body of [get_meta_system_prompt] as syntax

    The statements and expressions of lines 26-233 of [prompts.py], with an
    evaluator in which a name is looked up among the local variables first
    and among the module globals and builtins after, so that what a call
    returns can be compared under different globals. *)

Module prompts_ast.
Import Py.

Inductive value : Type :=
| VNone
| VBool (b : bool)
| VInt (n : Z)
| VStr (s : string).

#[local] Unset Elimination Schemes.

Inductive expr : Type :=
| Name (id : string)
| Constant (v : value)
| Sub (lhs rhs : expr)
| Lt (lhs rhs : expr)
| Eq (lhs rhs : expr)
| IfExp (body test orelse : expr)
| Upper (receiver : expr)
| FormattedValue (e : expr)
| JoinedStr (values : list expr).

Inductive stmt : Type :=
| Assign (target : string) (e : expr)
| If (test : expr) (body orelse : list stmt)
| Return (e : expr).

#[local] Set Elimination Schemes.

(** The local variables, latest binding first, and the names the module
    and the builtins give. *)
Definition Scope : Type := list (string * value).

Definition Globals : Type := string -> option value.

Fixpoint lookup (id : string) (locals : Scope) : option value :=
  match locals with
  | [] => None
  | (k, v) :: rest => if k =? id then Some v else lookup id rest
  end.

Definition resolve (g : Globals) (locals : Scope) (id : string) : option value :=
  match lookup id locals with
  | Some v => Some v
  | None => g id
  end.

(** The truth value of an object. *)
Definition truth (v : value) : bool :=
  match v with
  | VNone => false
  | VBool b => b
  | VInt n => negb (n =? 0)%Z
  | VStr s => negb (s =? EmptyString)
  end.

(** [==] on objects. *)
Definition value_eqb (x y : value) : bool :=
  match x, y with
  | VNone, VNone => true
  | VBool a, VBool b => Bool.eqb a b
  | VInt a, VInt b => (a =? b)%Z
  | VStr a, VStr b => a =? b
  | _, _ => false
  end.

(** What a replacement field without a format specification prints. *)
Definition format (v : value) : string :=
  match v with
  | VNone => "None"
  | VBool true => "True"
  | VBool false => "False"
  | VInt n => str_of_int n
  | VStr s => s
  end.

(** The value of an expression, or [None] when its evaluation raises (an
    unbound name, an operand of the wrong type). *)
Fixpoint eval (g : Globals) (locals : Scope) (e : expr) {struct e} : option value :=
  match e with
  | Name id => resolve g locals id
  | Constant v => Some v
  | Sub lhs rhs =>
      match eval g locals lhs, eval g locals rhs with
      | Some (VInt x), Some (VInt y) => Some (VInt (x - y))
      | _, _ => None
      end
  | Lt lhs rhs =>
      match eval g locals lhs, eval g locals rhs with
      | Some (VInt x), Some (VInt y) => Some (VBool (x <? y)%Z)
      | _, _ => None
      end
  | Eq lhs rhs =>
      match eval g locals lhs, eval g locals rhs with
      | Some x, Some y => Some (VBool (value_eqb x y))
      | _, _ => None
      end
  | IfExp body test orelse =>
      match eval g locals test with
      | Some t => if truth t then eval g locals body else eval g locals orelse
      | None => None
      end
  | Upper receiver =>
      match eval g locals receiver with
      | Some (VStr s) => Some (VStr (upper s))
      | _ => None
      end
  | FormattedValue e' =>
      match eval g locals e' with
      | Some v => Some (VStr (format v))
      | None => None
      end
  | JoinedStr values =>
      match
        (fix pieces (vs : list expr) : option (list string) :=
           match vs with
           | [] => Some []
           | v :: rest =>
               match eval g locals v, pieces rest with
               | Some (VStr s), Some l => Some (s :: l)
               | _, _ => None
               end
           end) values
      with
      | Some l => Some (VStr (String.concat EmptyString l))
      | None => None
      end
  end.

(** The texts of the parts of an f-string. *)
Fixpoint pieces (g : Globals) (locals : Scope) (values : list expr)
    : option (list string) :=
  match values with
  | [] => Some []
  | v :: rest =>
      match eval g locals v, pieces g locals rest with
      | Some (VStr s), Some l => Some (s :: l)
      | _, _ => None
      end
  end.

(** What a statement does: it goes on with new locals, returns, or raises. *)
Inductive outcome : Type :=
| Next (locals : Scope)
| Returns (v : value)
| Raises.

Fixpoint exec (g : Globals) (s : stmt) (locals : Scope) {struct s} : outcome :=
  match s with
  | Assign target e =>
      match eval g locals e with
      | Some v => Next ((target, v) :: locals)
      | None => Raises
      end
  | If test body orelse =>
      match eval g locals test with
      | Some t =>
          (fix block (ss : list stmt) (l : Scope) {struct ss} : outcome :=
             match ss with
             | [] => Next l
             | s' :: rest =>
                 match exec g s' l with
                 | Next l' => block rest l'
                 | other => other
                 end
             end) (if truth t then body else orelse) locals
      | None => Raises
      end
  | Return e =>
      match eval g locals e with
      | Some v => Returns v
      | None => Raises
      end
  end.

Fixpoint exec_block (g : Globals) (ss : list stmt) (locals : Scope) : outcome :=
  match ss with
  | [] => Next locals
  | s :: rest =>
      match exec g s locals with
      | Next locals' => exec_block g rest locals'
      | other => other
      end
  end.

(** A text part and a field that names a variable. *)
Definition text (s : string) : expr := Constant (VStr s).

Definition field (id : string) : expr := FormattedValue (Name id).

(** The lines of a multi-line f-string as one list of parts, a line feed
    between the lines. *)
Fixpoint flatten_lines (lines : list (list expr)) : list expr :=
  match lines with
  | [] => []
  | line :: rest =>
      match rest with
      | [] => line
      | _ => (line ++ text nl :: flatten_lines rest)%list
      end
  end.

(** The texts of the lines of a multi-line f-string. *)
Fixpoint render_lines (g : Globals) (locals : Scope) (lines : list (list expr))
    : option (list string) :=
  match lines with
  | [] => Some []
  | line :: rest =>
      match pieces g locals line, render_lines g locals rest with
      | Some l, Some ls => Some (String.concat EmptyString l :: ls)
      | _, _ => None
      end
  end.

(** Lines 30-31 and 33-34: the two texts [swarm_config] can get. *)
Definition ollama_swarm_config : string :=
  "model_provider=" ++ dq ++ "ollama" ++ dq ++ "," ++ nl ++
  "    model_settings={" ++ dq ++ "model_id" ++ dq ++ ": " ++ dq ++ "llama3.2:3b" ++ dq ++ ", "
    ++ dq ++ "host" ++ dq ++ ": " ++ dq ++ "http://localhost:11434" ++ dq ++ "},".

Definition bedrock_swarm_config : string :=
  "model_provider=" ++ dq ++ "bedrock" ++ dq ++ "," ++ nl ++
  "    model_settings={" ++ dq ++ "model_id" ++ dq ++ ": " ++ dq
    ++ "us.anthropic.claude-3-7-sonnet-20250219-v1:0" ++ dq ++ "},".

(** The conditional expression of the field of line 156. *)
Definition urgency_advice : expr :=
  IfExp (text "Complete core objectives immediately")
    (Eq (Name "urgency") (text "HIGH"))
    (IfExp (text "Balance thoroughness with efficiency")
       (Eq (Name "urgency") (text "MEDIUM"))
       (text "Explore comprehensively")).

(** Lines 38-233: the f-string, line by line. *)
Definition template_lines : list (list expr) :=
  [ [text "<role>"]
  ; [text "You are Meta-Everything Agent, an advanced autonomous problem-solving system implementing metacognitive reasoning with continuous self-assessment and adaptation. You systematically tackle any challenge through intelligent tool selection, dynamic capability creation, and cross-session learning."]
  ; [text "</role>"]
  ; []
  ; [text "<mission_parameters>"]
  ; [text "- Objective: "; field "objective"]
  ; [text "- Current Step: "; field "current_step"; text "/"; field "max_steps"]
  ; [text "- Remaining Steps: "; field "remaining_steps"]
  ; [text "- Urgency Level: "; field "urgency"]
  ; [text "- Server Type: "; FormattedValue (Upper (Name "server_type"))]
  ; [text "- Memory System: ENABLED"; field "tools_context"]
  ; [text "</mission_parameters>"]
  ; []
  ; [text "<cognitive_architecture>"]
  ; [text "## Memory Systems"]
  ; [text "- Working Memory: Current problem state and active operations"]
  ; [text ("- Episodic Memory: Past experiences stored via mem0_memory with user_id=" ++ dq ++ "meta_agent" ++ dq)]
  ; [text "- Semantic Memory: Domain knowledge and learned patterns (LLM knowledge + stored insights)"]
  ; [text "- Procedural Memory: Tool registry + dynamic tool creation capability"]
  ; [text "</cognitive_architecture>"]
  ; []
  ; [text "<meta_capabilities>"]
  ; [text "## 1. META-AGENT (Dynamic Agent Spawning)"]
  ; [text "Deploy specialized agents for complex subtasks:"]
  ; []
  ; [text "**Task Format (KEEP CONCISE - Max 120 words):**"]
  ; [text "```"]
  ; [text ("FIRST ACTION: mem0_memory(action=" ++ dq ++ "list" ++ dq ++ ", user_id=" ++ dq ++ "meta_agent" ++ dq ++ ") to retrieve all past findings")]
  ; [text "CONTEXT: [What has been done: tools used, solutions found, progress made]"]
  ; [text "OBJECTIVE: [ONE specific goal, not general exploration]"]
  ; [text "AVOID: [List what NOT to repeat based on memory retrieval]"]
  ; [text "FOCUS: [Specific area/technique to explore]"]
  ; [text "SUCCESS: [Clear, measurable outcome]"]
  ; [text "```"]
  ; []
  ; [text "**CRITICAL: Each swarm agent MUST:**"]
  ; [text "1. First retrieve memories with mem0_memory to understand completed work"]
  ; [text "2. Analyze retrieved findings before taking any actions"]
  ; []
  ; [text "**Usage Example:**"]
  ; [text "```python"]
  ; [text "swarm("]
  ; [text ("    task=f" ++ dq ++ "FIRST ACTION: mem0_memory(action='list', user_id='meta_agent')")]
  ; [text "CONTEXT: Built basic API client, implemented GET/POST methods"]
  ; [text "OBJECTIVE: Add authentication handling to existing API client"]
  ; [text "AVOID: Re-implementing basic HTTP methods already completed"]
  ; [text "FOCUS: OAuth2 and JWT authentication patterns"]
  ; [text ("SUCCESS: Working auth flow with token refresh capability" ++ dq ++ ",")]
  ; [text "    swarm_size=3,"]
  ; [text ("    coordination_pattern=" ++ dq ++ "collaborative" ++ dq ++ ",")]
  ; [text "    "; field "swarm_config"]
  ; [text ("    tools=[" ++ dq ++ "shell" ++ dq ++ ", " ++ dq ++ "editor" ++ dq ++ ", " ++ dq ++ "load_tool" ++ dq ++ ", " ++ dq ++ "http_request" ++ dq ++ ", " ++ dq ++ "mem0_memory" ++ dq ++ "]")]
  ; [text ")"]
  ; [text "```"]
  ; []
  ; [text "## 2. META-TOOLING (Runtime Tool Creation)"]
  ; [text "Create tools when existing ones are insufficient:"]
  ; [text "```python"]
  ; [text ("editor(action=" ++ dq ++ "create" ++ dq ++ ", path=" ++ dq ++ "tools/custom_tool.py" ++ dq ++ ", content=" ++ dq ++ "..." ++ dq ++ ")")]
  ; [text ("python_repl(code=" ++ dq ++ "test code" ++ dq ++ ")")]
  ; [text ("load_tool(path=" ++ dq ++ "tools/custom_tool.py" ++ dq ++ ")")]
  ; [text "```"]
  ; []
  ; [text "## 3. META-LEARNING (Cross-Session Knowledge)"]
  ; [text "```python"]
  ; [text ("mem0_memory(action=" ++ dq ++ "retrieve" ++ dq ++ ", query=" ++ dq ++ "similar problem" ++ dq ++ ", user_id=" ++ dq ++ "meta_agent" ++ dq ++ ")")]
  ; [text "mem0_memory("]
  ; [text ("    action=" ++ dq ++ "store" ++ dq ++ ",")]
  ; [text ("    content=" ++ dq ++ "strategy: [what worked]" ++ dq ++ ",")]
  ; [text ("    user_id=" ++ dq ++ "meta_agent" ++ dq ++ ",")]
  ; [text ("    metadata={" ++ dq ++ "type" ++ dq ++ ": " ++ dq ++ "solution" ++ dq ++ ", " ++ dq ++ "domain" ++ dq ++ ": " ++ dq ++ "..." ++ dq ++ ", " ++ dq ++ "success" ++ dq ++ ": True}")]
  ; [text ")"]
  ; [text "```"]
  ; []
  ; [text "## 4. META-COGNITION (Self-Reflection)"]
  ; [text "Continuously assess and adapt:"]
  ; [text "```python"]
  ; [text "think("]
  ; [text ("    prompt=" ++ dq ++ "Analyze current approach" ++ dq ++ ",")]
  ; [text ("    considerations=[" ++ dq ++ "confidence level" ++ dq ++ ", " ++ dq ++ "alternative strategies" ++ dq ++ ", " ++ dq ++ "tool requirements" ++ dq ++ "]")]
  ; [text ")"]
  ; [text "```"]
  ; []
  ; [text "## 5. TIME AWARENESS (Temporal Context)"]
  ; [text "Track time for scheduling, deadlines, and temporal analysis:"]
  ; [text "```python"]
  ; [text "current_time()"]
  ; []
  ; [text ("current_time(timezone=" ++ dq ++ "US/Pacific" ++ dq ++ ")")]
  ; [text ("current_time(timezone=" ++ dq ++ "Europe/London" ++ dq ++ ")")]
  ; [text ("current_time(timezone=" ++ dq ++ "Asia/Tokyo" ++ dq ++ ")")]
  ; []
  ; [text "timestamp = current_time()"]
  ; [text "mem0_memory("]
  ; [text ("    action=" ++ dq ++ "store" ++ dq ++ ",")]
  ; [text ("    content=f" ++ dq ++ "Task completed at {timestamp}" ++ dq ++ ",")]
  ; [text ("    user_id=" ++ dq ++ "meta_agent" ++ dq ++ ",")]
  ; [text ("    metadata={" ++ dq ++ "timestamp" ++ dq ++ ": timestamp, " ++ dq ++ "type" ++ dq ++ ": " ++ dq ++ "completion" ++ dq ++ "}")]
  ; [text ")"]
  ; [text "```"]
  ; [text "</meta_capabilities>"]
  ; []
  ; [text "<metacognitive_framework>"]
  ; [text "## Confidence-Based Execution"]
  ; [text "- **High Confidence (>80%)**: Direct execution with existing tools"]
  ; [text "- **Medium Confidence (50-80%)**: Deep reflection, possible tool creation"]
  ; [text "- **Low Confidence (<50%)**: Spawn expert agents, extensive memory search"]
  ; []
  ; [text "## Adaptive Strategy Selection"]
  ; [text "1. Assess problem complexity and domain"]
  ; [text "2. Evaluate available tools and past experiences"]
  ; [text "3. Select approach based on confidence:"]
  ; [text "   - High → Specialized tools"]
  ; [text "   - Medium → Create tools or parallel exploration"]
  ; [text "   - Low → Multi-agent swarm deployment"]
  ; []
  ; [text "## Step Budget Awareness"]
  ; [text "- Current Progress: "; field "current_step"; text "/"; field "max_steps"; text " steps used"]
  ; [text "- Urgency: "; field "urgency"; text " - "; FormattedValue urgency_advice]
  ; [text "- If approaching limit: Summarize progress and call stop()"]
  ; [text "</metacognitive_framework>"]
  ; []
  ; [text "<operational_protocols>"]
  ; [text "## Memory Protocol"]
  ; [text "**MANDATORY**: Store insights after:"]
  ; [text "- Successful problem solutions"]
  ; [text "- Tool creation (with code and use case)"]
  ; [text "- Failed attempts (with lessons learned)"]
  ; [text "- Domain knowledge discoveries"]
  ; [text "- Performance optimizations"]
  ; []
  ; [text "Format:"]
  ; [text "```python"]
  ; [text "mem0_memory("]
  ; [text ("    action=" ++ dq ++ "store" ++ dq ++ ",")]
  ; [text ("    content=" ++ dq ++ "[INSIGHT] [CONTEXT] [OUTCOME] [REUSABILITY]" ++ dq ++ ",")]
  ; [text ("    user_id=" ++ dq ++ "meta_agent" ++ dq ++ ",")]
  ; [text ("    metadata={" ++ dq ++ "type" ++ dq ++ ": " ++ dq ++ "tool|strategy|knowledge|failure" ++ dq ++ ", " ++ dq ++ "domain" ++ dq ++ ": " ++ dq ++ "..." ++ dq ++ ", " ++ dq ++ "confidence" ++ dq ++ ": " ++ dq ++ "X%" ++ dq ++ "}")]
  ; [text ")"]
  ; [text "```"]
  ; []
  ; [text "## Swarm Deployment Protocol"]
  ; [text "**Use when**: Problem requires multiple perspectives, parallel exploration, or specialized expertise"]
  ; [text "**Configuration**: Always include mem0_memory in tools for knowledge sharing"]
  ; [text "**Coordination**: Define clear roles and expected outputs for each agent"]
  ; []
  ; [text "## Tool Creation Protocol"]
  ; [text "1. Identify capability gap"]
  ; [text "2. Design tool specification"]
  ; [text "3. Implement with editor"]
  ; [text "4. Test with python_repl"]
  ; [text "5. Store tool and use case in memory"]
  ; [text "6. Load and deploy"]
  ; []
  ; [text "## Completion Protocol"]
  ; [text "Call stop() when:"]
  ; [text "- Objective is fully achieved"]
  ; [text "- Unable to proceed (explain limitations)"]
  ; [text "- Step budget approaching (summarize progress)"]
  ; []
  ; [text "Format:"]
  ; [text "```python"]
  ; [text ("stop(reason=" ++ dq ++ "Objective achieved: [specific outcome]" ++ dq ++ ")")]
  ; [text ("stop(reason=" ++ dq ++ "Cannot proceed: [specific limitation]" ++ dq ++ ")")]
  ; [text ("stop(reason=" ++ dq ++ "Step budget exhausted. Progress: [summary of achievements]" ++ dq ++ ")")]
  ; [text "```"]
  ; [text "</operational_protocols>"]
  ; []
  ; [text "<execution_patterns>"]
  ; [text "## Problem-Solving Flow"]
  ; [text "1. **Initialize**: Check memory for similar problems"]
  ; [text "2. **Analyze**: Understand requirements and constraints"]
  ; [text "3. **Plan**: Select strategy based on confidence and remaining steps"]
  ; [text "4. **Execute**: Implement with appropriate tools/agents"]
  ; [text "5. **Reflect**: Assess outcomes and adapt if needed"]
  ; [text "6. **Learn**: Store insights for future use"]
  ; [text "7. **Complete**: Call stop() with clear outcome"]
  ; []
  ; [text "## Dynamic Adaptation"]
  ; [text "- Monitor progress continuously against step budget"]
  ; [text "- Adjust strategy based on intermediate results"]
  ; [text "- Create tools when patterns emerge"]
  ; [text "- Spawn agents when complexity increases"]
  ; [text "- Store all valuable insights"]
  ; [text "</execution_patterns>"]
  ; []
  ; [text "<key_principles>"]
  ; [text "- **Unlimited Potential**: You can create any tool or capability needed"]
  ; [text "- **Continuous Evolution**: Every problem makes you more capable"]
  ; [text "- **Intelligent Adaptation**: Match approach to problem characteristics"]
  ; [text "- **Persistent Learning**: Knowledge accumulates across sessions"]
  ; [text "- **Autonomous Completion**: Self-determine when objectives are met"]
  ; [text "- **Resource Awareness**: Work efficiently within step constraints"]
  ; []
  ; [text "Remember: You are Meta-Everything Agent - a system that evolves beyond its initial capabilities. Through tool creation, agent orchestration, and persistent learning, you adapt to solve any challenge. Your growth is bounded only by imagination and the problems you encounter."]
  ; [text "</key_principles>"]
  ].

(** Lines 26-233: the body of the function. *)
Definition get_meta_system_prompt_body : list stmt :=
  [ Assign "remaining_steps" (Sub (Name "max_steps") (Name "current_step"))
  ; Assign "urgency"
      (IfExp (text "HIGH") (Lt (Name "remaining_steps") (Constant (VInt 3)))
         (IfExp (text "MEDIUM") (Lt (Name "remaining_steps") (Constant (VInt 7)))
            (text "LOW")))
  ; If (Eq (Name "server_type") (text "local"))
      [ Assign "swarm_config" (text ollama_swarm_config) ]
      [ Assign "swarm_config" (text bedrock_swarm_config) ]
  ; Assign "tools_context"
      (IfExp (JoinedStr [text (nl ++ "- Available Tools: "); field "tools_available"])
         (Name "tools_available")
         (text EmptyString))
  ; Return (JoinedStr (flatten_lines template_lines))
  ].

(** A call with the five arguments bound to the parameters. *)
Definition call_get_meta_system_prompt (g : Globals)
    (objective : string) (current_step max_steps : Z)
    (server_type : string) (tools_available : option string) : outcome :=
  let locals :=
    [ ("objective", VStr objective)
    ; ("current_step", VInt current_step)
    ; ("max_steps", VInt max_steps)
    ; ("server_type", VStr server_type)
    ; ("tools_available",
       match tools_available with
       | Some t => VStr t
       | None => VNone
       end)
    ] in
  match exec_block g get_meta_system_prompt_body locals with
  | Next _ => Returns VNone
  | other => other
  end.

End prompts_ast.

(** ** Properties of the renderer *)

Module PromptFacts.
Import Py prompts.

Lemma urgency_of_cases (remaining : Z) :
  (remaining < 3 /\ urgency_of remaining = "HIGH") \/
  (3 <= remaining < 7 /\ urgency_of remaining = "MEDIUM") \/
  (7 <= remaining /\ urgency_of remaining = "LOW").
Proof.
  unfold urgency_of.
  destruct (Z.ltb_spec remaining 3) as [Hlt3 | Hge3].
  - left. split; [assumption | reflexivity].
  - destruct (Z.ltb_spec remaining 7) as [Hlt7 | Hge7].
    + right; left. split; [lia | reflexivity].
    + right; right. split; [assumption | reflexivity].
Qed.

(** The mission block of every rendered prompt shows the remaining steps
    computed from its two counters and the tier classified from them. *)
Lemma prompt_lines_mission (objective : string) (current_step max_steps : Z)
    (server_type : string) (tools_available : option string) :
  let remaining := remaining_of max_steps current_step in
  In ("- Remaining Steps: " ++ str_of_int remaining)
     (prompt_lines objective current_step max_steps server_type tools_available) /\
  In ("- Urgency Level: " ++ urgency_of remaining)
     (prompt_lines objective current_step max_steps server_type tools_available).
Proof.
  intros remaining. unfold prompt_lines, role_block.
  fold remaining. cbn [app].
  split.
  - do 4 right. unfold mission_parameters_block. cbn [app].
    do 3 right. left. reflexivity.
  - do 4 right. unfold mission_parameters_block. cbn [app].
    do 4 right. left. reflexivity.
Qed.

(** C1. The urgency tier of a remaining-step count (the difference
    [max_steps - current_step] of line 26) is HIGH below 3, negative counts
    included, MEDIUM from 3 to 6 and LOW from 7 on; at the boundaries, 7 is
    LOW, 6 and 3 are MEDIUM and 2 is HIGH. *)
Theorem urgency_thresholds (remaining : Z) :
  (remaining < 3 -> urgency_of remaining = "HIGH") /\
  (3 <= remaining < 7 -> urgency_of remaining = "MEDIUM") /\
  (7 <= remaining -> urgency_of remaining = "LOW") /\
  urgency_of 7 = "LOW" /\ urgency_of 6 = "MEDIUM" /\
  urgency_of 3 = "MEDIUM" /\ urgency_of 2 = "HIGH".
Proof.
  destruct (urgency_of_cases remaining) as [[H ->] | [[H ->] | [H ->]]];
    repeat split; intros; try reflexivity; lia.
Qed.

End PromptFacts.

(** ** Properties of the agent *)

Module AgentFacts.
Import Py prompts agent.

Lemma append_assoc (a b c : string) : (a ++ b) ++ c = a ++ b ++ c.
Proof.
  induction a as [| ch a IH]; cbn [append].
  - reflexivity.
  - rewrite IH. reflexivity.
Qed.

(** The mission lines of a prompt, with the remainder written out. *)
Lemma prompt_lines_mission_at (o : string) (N M : Z) (st : string)
    (tools : option string) :
  In ("- Remaining Steps: " ++ str_of_int (M - N)) (prompt_lines o N M st tools) /\
  In ("- Urgency Level: " ++ urgency_of (M - N)) (prompt_lines o N M st tools).
Proof. exact (PromptFacts.prompt_lines_mission o N M st tools). Qed.

(** C6. [reset] puts the step counter back to 0 and empties the lists of
    created tools and spawned agents and the learning count, so the
    execution summary is empty as well; [max_steps] and the objective are as
    before. *)
Theorem reset_clears_counters_and_summary (self : MetaEverythingAgent) :
  current_step (reset self) = 0 /\
  created_tools (reset self) = [] /\
  spawned_agents (reset self) = [] /\
  learning_count (reset self) = 0 /\
  get_execution_summary (reset self) = mkSummary 0 [] [] 0 /\
  max_steps (reset self) = max_steps self /\
  objective (reset self) = objective self.
Proof. repeat split. Qed.

Section Driver.

Context {World Exc BaseExc Memory Result : Type}.
Context {collab : Collaborators World Exc BaseExc Memory Result}.

(** A truthy objective is a text other than the empty one. *)
Lemma truthy_Some (o : string) : truthy (Some o) = true <-> o <> EmptyString.
Proof.
  unfold truthy.
  destruct (String.eqb_spec o EmptyString) as [Heq | Hne]; cbn [negb].
  - split; [discriminate | contradiction].
  - split; [intros _; exact Hne | reflexivity].
Qed.

Lemma when_truthy_yes {A : Type} (o : string) (yes : string -> A) (no : A) :
  truthy (Some o) = true -> when_truthy (Some o) yes no = yes o.
Proof.
  intros Hne. unfold when_truthy. rewrite Hne. reflexivity.
Qed.

(** *** One turn *)

Lemma call_self (self : MetaEverythingAgent) (message : option string) (env : Env World) :
  fst (__call__ self message env) =
  refresh_system_prompt (with_current_step self (current_step self + 1)).
Proof. reflexivity. Qed.

(** The object a turn leaves depends neither on the message nor on the
    environment. *)
Lemma call_self_independent (self : MetaEverythingAgent)
    (message1 message2 : option string) (env1 env2 : Env World) :
  fst (__call__ self message1 env1) = fst (__call__ self message2 env2).
Proof. rewrite !call_self. reflexivity. Qed.

Lemma call_outcome (self : MetaEverythingAgent) (message : option string) (env : Env World) :
  snd (__call__ self message env) =
  let self' := fst (__call__ self message env) in
  external (Agent_call (system_prompt self') (turn_message self' message)) env.
Proof. reflexivity. Qed.

(** The refresh touches the system prompt only. *)
Lemma refresh_frame (self : MetaEverythingAgent) :
  let self' := refresh_system_prompt self in
  server_type self' = server_type self /\
  objective self' = objective self /\
  max_steps self' = max_steps self /\
  current_step self' = current_step self /\
  tools_list self' = tools_list self /\
  created_tools self' = created_tools self /\
  spawned_agents self' = spawned_agents self /\
  learning_count self' = learning_count self.
Proof.
  unfold refresh_system_prompt, when_truthy.
  destruct (objective self) as [o |] eqn:Hobj; cbn zeta.
  - destruct (truthy (Some o)); [| repeat split; exact Hobj].
    destruct (current_step self <=? max_steps self)%Z;
      repeat split; exact Hobj.
  - repeat split; exact Hobj.
Qed.

Lemma call_frame (self : MetaEverythingAgent) (message : option string) (env : Env World) :
  let self' := fst (__call__ self message env) in
  server_type self' = server_type self /\
  objective self' = objective self /\
  max_steps self' = max_steps self /\
  current_step self' = current_step self + 1 /\
  tools_list self' = tools_list self.
Proof.
  cbn zeta. rewrite call_self.
  destruct (refresh_frame (with_current_step self (current_step self + 1)))
    as (Hs & Ho & Hm & Hc & Ht & _).
  rewrite Hs, Ho, Hm, Hc, Ht. repeat split.
Qed.

(** What the system prompt is after a turn of a session with an objective. *)
Lemma call_system_prompt (self : MetaEverythingAgent) (message : option string) (env : Env World)
    (o : string) :
  objective self = Some o -> truthy (Some o) = true ->
  system_prompt (fst (__call__ self message env)) =
  if (current_step self + 1 <=? max_steps self)%Z then
    get_meta_system_prompt o (current_step self + 1) (max_steps self)
      (server_type self) (Some (tools_list self))
  else system_prompt self.
Proof.
  intros Hobj Hne. rewrite call_self.
  unfold refresh_system_prompt. cbn [objective with_current_step].
  rewrite Hobj, (when_truthy_yes o _ _ Hne).
  cbn [current_step max_steps server_type tools_list with_current_step].
  destruct (current_step self + 1 <=? max_steps self)%Z; reflexivity.
Qed.

(** *** Several turns *)

Lemma turns_app (self : MetaEverythingAgent) (env : Env World) (first rest : list (option string)) :
  turns self env (first ++ rest) =
  turns (fst (turns self env first)) (snd (turns self env first)) rest.
Proof.
  revert self env.
  induction first as [| m first IH]; intros self env.
  - reflexivity.
  - cbn [app turns].
    destruct (__call__ self m env) as [self' [env' outcome]].
    apply IH.
Qed.

Lemma turns_last (self : MetaEverythingAgent) (env : Env World) (first : list (option string))
    (m : option string) :
  fst (turns self env (first ++ [m])) =
  fst (__call__ (fst (turns self env first)) m (snd (turns self env first))).
Proof.
  rewrite turns_app. cbn [turns].
  destruct (__call__ (fst (turns self env first)) m (snd (turns self env first)))
    as [self' [env' outcome]].
  reflexivity.
Qed.

Lemma turns_frame (self : MetaEverythingAgent) (env : Env World) (messages : list (option string)) :
  let self' := fst (turns self env messages) in
  server_type self' = server_type self /\
  objective self' = objective self /\
  max_steps self' = max_steps self /\
  current_step self' = current_step self + Z.of_nat (length messages) /\
  tools_list self' = tools_list self.
Proof.
  revert self env.
  induction messages as [| m rest IH]; intros self env.
  - cbn. repeat split. lia.
  - cbn [turns].
    pose proof (call_frame self m env) as Hcall. cbn zeta in Hcall.
    destruct (__call__ self m env) as [self1 [env1 outcome]].
    cbn [fst] in Hcall. destruct Hcall as (Hs & Ho & Hm & Hc & Ht).
    specialize (IH self1 env1). cbn zeta in IH.
    destruct IH as (Is & Io & Im & Ic & It).
    cbn zeta.
    rewrite Is, Io, Im, Ic, It, Hs, Ho, Hm, Hc, Ht.
    repeat split. cbn [length]. lia.
Qed.

(** After at least one turn, and while the step is within the budget, the
    system prompt of a session with an objective is the one rendered from
    its current counters. *)
Lemma turns_system_prompt (self : MetaEverythingAgent) (env : Env World)
    (messages : list (option string)) (o : string) :
  objective self = Some o -> truthy (Some o) = true -> messages <> [] ->
  let self' := fst (turns self env messages) in
  current_step self' <= max_steps self ->
  system_prompt self' =
  get_meta_system_prompt o (current_step self') (max_steps self)
    (server_type self) (Some (tools_list self)).
Proof.
  intros Hobj Hne Hnil.
  destruct (exists_last Hnil) as (first & m & ->).
  cbn zeta. rewrite turns_last.
  destruct (turns_frame self env first) as (Ps & Po & Pm & Pc & Pt).
  set (prev := fst (turns self env first)) in *.
  destruct (call_frame prev m (snd (turns self env first))) as (_ & _ & _ & Hc & _).
  rewrite Hc. intros Hle.
  rewrite (call_system_prompt prev m _ o); [| congruence | exact Hne].
  rewrite Ps, Pm, Pt.
  destruct (Z.leb_spec (current_step prev + 1) (max_steps self)) as [_ | Hgt];
    [reflexivity | lia].
Qed.

(** The states [turns] goes through are reachable. *)
Lemma turns_reachable (self : MetaEverythingAgent) (env : Env World) (messages : list (option string)) :
  reachable self env (fst (turns self env messages)) (snd (turns self env messages)).
Proof.
  induction messages as [| m first IH] using rev_ind.
  - apply reachable_start.
  - rewrite turns_app. cbn [turns].
    pose proof (reachable_turn self env _ _ m IH) as Hstep.
    destruct (__call__ (fst (turns self env first)) m (snd (turns self env first)))
      as [self' [env' outcome]].
    exact Hstep.
Qed.

(** Every reachable state is the end of some run of turns. *)
Lemma reachable_turns (self0 self : MetaEverythingAgent) (env0 env : Env World) :
  reachable self0 env0 self env ->
  exists messages, turns self0 env0 messages = (self, env).
Proof.
  induction 1 as [| self env m Hreach [messages IH]].
  - exists []. reflexivity.
  - exists (messages ++ [m])%list.
    rewrite turns_app, IH. cbn [fst snd turns].
    destruct (__call__ self m env) as [self' [env' outcome]].
    reflexivity.
Qed.

(** *** Construction *)

(** The agent a successful construction returns is fixed by the arguments:
    nothing the memory store answered reaches it. *)
Lemma init_returns (st : string) (obj : option string) (M : Z)
    (extra : option (list Tool)) (env0 env : Env World) (a0 : MetaEverythingAgent) :
  __init__ st obj M extra env0 = (env, inr a0) ->
  let tools := join ", " (map tool_label (meta_tools_of extra)) in
  a0 = mkAgent st obj M 0 tools
         (when_truthy obj
            (fun o => get_meta_system_prompt o 1 M st (Some tools))
            "You are MetaAgent, an adaptive AI system.")
         [] [] 0.
Proof.
  unfold __init__, bind, external.
  destruct (Agent_init _ (world env0)) as [w1 [r | []]]; [discriminate |].
  unfold when_truthy at 1.
  destruct obj as [o |].
  - destruct (truthy (Some o)).
    + destruct (_initialize_context _ o _) as [env2 [r | []]]; [discriminate |].
      unfold ret. intros H; inversion H. reflexivity.
    + unfold ret. intros H; inversion H. reflexivity.
  - unfold ret. intros H; inversion H. reflexivity.
Qed.

(** What [except Exception] lets through does end the construction. *)
Lemma init_base_exception_propagates (st o : string) (M : Z)
    (extra : option (list Tool)) (env0 : Env World) (w1 w2 : World) (b : BaseExc) :
  truthy (Some o) = true ->
  Agent_init
    (get_meta_system_prompt o 1 M st
       (Some (join ", " (map tool_label (meta_tools_of extra)))))
    (world env0) = (w1, inr tt) ->
  mem0_memory_retrieve o "meta_agent" w1 = (w2, inl (Raise_BaseException b)) ->
  __init__ st (Some o) M extra env0 = (mkEnv w2 (log env0), inl (Raise_BaseException b)).
Proof.
  intros Hne Hinit Hmem.
  unfold __init__, bind, external.
  rewrite (when_truthy_yes o _ _ Hne), Hinit.
  rewrite (when_truthy_yes o _ _ Hne).
  unfold _initialize_context, try_except_Exception, bind, external.
  cbn [world log]. rewrite Hmem. reflexivity.
Qed.

(** *** The claims about the driver *)


(** C3, amended. After [N] turns from construction the step counter is [N];
    it is at most [max_steps + 1] as long as no more than [max_steps + 1]
    turns were invoked, and the driver sets no ceiling of its own. *)
Theorem step_bound_within_turns (st : string) (obj : option string) (M : Z)
    (extra : option (list Tool)) (env0 env : Env World) (a0 : MetaEverythingAgent)
    (messages : list (option string)) :
  __init__ st obj M extra env0 = (env, inr a0) ->
  let a := fst (turns a0 env messages) in
  reachable a0 env a (snd (turns a0 env messages)) /\
  current_step a = Z.of_nat (length messages) /\
  (Z.of_nat (length messages) <= max_steps a + 1 ->
   current_step a <= max_steps a + 1).
Proof.
  intros Hinit a.
  pose proof (init_returns _ _ _ _ _ _ _ Hinit) as Ha0. cbn zeta in Ha0.
  destruct (turns_frame a0 env messages) as (_ & _ & _ & Hc & _).
  fold a in Hc.
  assert (H0 : current_step a0 = 0) by (rewrite Ha0; reflexivity).
  split; [apply turns_reachable |].
  rewrite Hc, H0. split; lia.
Qed.

(** C7. When the memory tool raises an exception during the construction of
    a session with an objective, the exception is caught, one warning is
    logged, and the construction returns the agent, at step 0 and with the
    prompt rendered from the arguments alone. *)
Theorem init_survives_retrieve_failure (st o : string) (M : Z)
    (extra : option (list Tool)) (env0 : Env World) (w1 w2 : World) (e : Exc) :
  truthy (Some o) = true ->
  Agent_init
    (get_meta_system_prompt o 1 M st
       (Some (join ", " (map tool_label (meta_tools_of extra)))))
    (world env0) = (w1, inr tt) ->
  mem0_memory_retrieve o "meta_agent" w1 = (w2, inl (Raise_Exception e)) ->
  let tools := join ", " (map tool_label (meta_tools_of extra)) in
  __init__ st (Some o) M extra env0 =
  (mkEnv w2 (log env0 ++ [(WARNING, "Memory initialization failed: " ++ str_of_Exc e)]),
   inr (mkAgent st (Some o) M 0 tools
          (get_meta_system_prompt o 1 M st (Some tools)) [] [] 0)).
Proof.
  intros Hne Hinit Hmem tools.
  unfold __init__, bind, external. fold tools.
  rewrite (when_truthy_yes o _ _ Hne). fold tools in Hinit. rewrite Hinit.
  rewrite (when_truthy_yes o _ _ Hne).
  unfold _initialize_context, try_except_Exception, bind, external.
  cbn [world log]. rewrite Hmem.
  unfold logger_emit, ret. cbn [world log]. reflexivity.
Qed.

(** C8. What the base call raises during a turn comes out of the driver as
    it is: the driver returns that same raised object, logs nothing, and
    leaves the world as the one base call left it, so the call was made
    once. *)
Theorem turn_exception_propagates (self : MetaEverythingAgent) (message : option string)
    (env : Env World) (w' : World) (r : raised Exc BaseExc) :
  let self' := fst (__call__ self message env) in
  Agent_call (system_prompt self') (turn_message self' message) (world env)
    = (w', inl r) ->
  snd (__call__ self message env) = (mkEnv w' (log env), inl r).
Proof.
  intros self' Hraise.
  rewrite call_outcome. fold self'. cbn zeta.
  unfold external. rewrite Hraise. reflexivity.
Qed.

(** C9. A turn called without a message on a session with an objective
    hands the base call a continuation message that contains
    "step X of Y", X being the step of the turn and Y being [max_steps]. *)
Theorem default_message_names_step (self : MetaEverythingAgent) (env : Env World) (o : string) :
  objective self = Some o -> truthy (Some o) = true ->
  let self' := fst (__call__ self None env) in
  snd (__call__ self None env) =
    external (Agent_call (system_prompt self') (continuation_message self')) env /\
  continuation_message self' =
    "Continue working on the objective. This is step "
      ++ str_of_int (current_step self + 1) ++ " of "
      ++ str_of_int (max_steps self) ++ "." /\
  contains
    ("step " ++ str_of_int (current_step self + 1) ++ " of "
       ++ str_of_int (max_steps self))
    (continuation_message self').
Proof.
  intros Hobj Hne self'.
  destruct (call_frame self None env) as (_ & Ho & Hm & Hc & _).
  fold self' in Ho, Hm, Hc.
  assert (Hmsg : continuation_message self' =
    "Continue working on the objective. This is step "
      ++ str_of_int (current_step self + 1) ++ " of "
      ++ str_of_int (max_steps self) ++ ".").
  { unfold continuation_message. rewrite Hm, Hc. reflexivity. }
  split; [| split].
  - rewrite call_outcome. fold self'. cbn zeta.
    unfold turn_message. rewrite Ho, Hobj, (when_truthy_yes o _ _ Hne).
    reflexivity.
  - exact Hmsg.
  - exists "Continue working on the objective. This is ", ".".
    rewrite Hmsg, !append_assoc. reflexivity.
Qed.

(** C10. The system prompt a session with an objective gets at construction
    is rendered for step 1 while the counter is 0, and the first turn
    leaves the same text: what that turn renders from its counters is the
    construction prompt. *)
Theorem construction_prompt_is_first_turn_prompt (st o : string) (M : Z)
    (extra : option (list Tool)) (env0 env env' : Env World) (a0 : MetaEverythingAgent)
    (message : option string) :
  truthy (Some o) = true ->
  __init__ st (Some o) M extra env0 = (env, inr a0) ->
  let a1 := fst (__call__ a0 message env') in
  current_step a0 = 0 /\
  system_prompt a0 = get_meta_system_prompt o 1 M st (Some (tools_list a0)) /\
  current_step a1 = 1 /\
  get_meta_system_prompt o (current_step a1) (max_steps a1) (server_type a1)
    (Some (tools_list a1)) = system_prompt a0 /\
  system_prompt a1 = system_prompt a0.
Proof.
  intros Hne Hinit a1.
  pose proof (init_returns _ _ _ _ _ _ _ Hinit) as Ha0. cbn zeta in Ha0.
  rewrite (when_truthy_yes o _ _ Hne) in Ha0.
  destruct (call_frame a0 message env') as (Hs & _ & Hm & Hc & Ht).
  fold a1 in Hs, Hm, Hc, Ht.
  pose proof (call_system_prompt a0 message env' o) as Hp. fold a1 in Hp.
  rewrite Hs, Hm, Hc, Ht, Hp; [| rewrite Ha0; reflexivity | exact Hne].
  rewrite Ha0. cbn [current_step max_steps server_type tools_list system_prompt].
  repeat split.
  destruct (0 + 1 <=? M)%Z; reflexivity.
Qed.

End Driver.

End AgentFacts.

(** ** Worked examples on the scripted world *)

Module Examples.
Import Py prompts agent Fixture AgentFacts.

Example tools_text_value :
  tools_text =
  "swarm, editor, load_tool, mem0_memory, think, python_repl, http_request, shell, current_time, stop".
Proof. reflexivity. Qed.

Example init_store_up :
  __init__ "remote" (Some "tidy the logs") 10 None env_up =
  (mkEnv (world env_up) [(INFO, "Found 1 relevant memories")],
   inr (session "tidy the logs" 10)).
Proof. vm_compute. reflexivity. Qed.

Example str_of_int_values :
  str_of_int 0 = "0" /\ str_of_int 10 = "10" /\ str_of_int (-2) = "-2".
Proof. repeat split. Qed.

Example upper_remote : upper "remote" = "REMOTE".
Proof. reflexivity. Qed.

(** The renderer accepts a step beyond the budget: the remainder is negative
    and the tier is HIGH. *)
Example overrun_prompt_lines :
  In "- Remaining Steps: -2" (prompt_lines "tidy the logs" 12 10 "remote" None) /\
  In "- Urgency Level: HIGH" (prompt_lines "tidy the logs" 12 10 "remote" None).
Proof. exact (PromptFacts.prompt_lines_mission "tidy the logs" 12 10 "remote" None). Qed.

Lemma urgency_thresholds_witness :
  (-4 < 3 /\ urgency_of (-4) = "HIGH") /\
  (3 <= 5 < 7 /\ urgency_of 5 = "MEDIUM") /\
  (7 <= 9 /\ urgency_of 9 = "LOW").
Proof.
  destruct (PromptFacts.urgency_thresholds (-4)) as (Hhigh & _).
  destruct (PromptFacts.urgency_thresholds 5) as (_ & Hmedium & _).
  destruct (PromptFacts.urgency_thresholds 9) as (_ & _ & Hlow & _).
  split; [| split].
  - split; [lia | apply Hhigh; lia].
  - split; [lia | apply Hmedium; lia].
  - split; [lia | apply Hlow; lia].
Defined.

Lemma init_in_env_up (o : string) (M : Z) :
  truthy (Some o) = true ->
  __init__ "remote" (Some o) M None env_up = (env_primed, inr (session o M)).
Proof.
  intros Ho.
  unfold __init__, bind, external.
  rewrite !(when_truthy_yes o _ _ Ho).
  reflexivity.
Qed.


(** C3, counterexample. With [max_steps = 1], three turns from construction
    reach a state whose step counter is 3, above [max_steps + 1]. *)
Lemma step_bound_exceeded :
  let a0 := session "tidy the logs" 1 in
  __init__ "remote" (Some "tidy the logs") 1 None env_up = (env_primed, inr a0) /\
  let a3 := fst (turns a0 env_primed [None; None; None]) in
  reachable a0 env_primed a3 (snd (turns a0 env_primed [None; None; None])) /\
  current_step a3 = 3 /\ max_steps a3 = 1 /\
  ~ current_step a3 <= max_steps a3 + 1.
Proof.
  cbn zeta. split; [apply init_in_env_up; reflexivity |].
  split; [apply turns_reachable |].
  split; [reflexivity |]. split; [reflexivity |].
  vm_compute. intros H. apply H. reflexivity.
Qed.


Lemma step_bound_within_turns_witness :
  let a := fst (turns (session "tidy the logs" 2) env_primed
                  [None; Some "go on"; None]) in
  current_step a = 3 /\ current_step a <= max_steps a + 1.
Proof.
  cbn zeta.
  assert (Hinit : __init__ "remote" (Some "tidy the logs") 2 None env_up =
                  (env_primed, inr (session "tidy the logs" 2)))
    by (vm_compute; reflexivity).
  destruct (step_bound_within_turns "remote" (Some "tidy the logs") 2 None
              env_up env_primed (session "tidy the logs" 2)
              [None; Some "go on"; None] Hinit) as (_ & Hstep & Hbound).
  split; [exact Hstep | apply Hbound; vm_compute; discriminate].
Defined.

Lemma init_survives_retrieve_failure_witness :
  __init__ "remote" (Some "tidy the logs") 10 None env_store_down =
  (mkEnv (world env_store_down)
     [(WARNING, "Memory initialization failed: store unavailable")],
   inr (session "tidy the logs" 10)).
Proof.
  exact (init_survives_retrieve_failure "remote" "tidy the logs" 10 None
           env_store_down (world env_store_down) (world env_store_down)
           "store unavailable" eq_refl eq_refl eq_refl).
Defined.

Lemma turn_exception_propagates_witness :
  let a0 := session "tidy the logs" 10 in
  let a1 := fst (__call__ a0 None env_engine_down) in
  let w' := mkWorld true false [(system_prompt a1, continuation_message a1)] in
  snd (__call__ a0 None env_engine_down) =
    (mkEnv w' [], inl (Raise_Exception "model unavailable")) /\
  length (calls w') = 1%nat.
Proof.
  cbn zeta. split; [| reflexivity].
  apply (turn_exception_propagates (session "tidy the logs" 10) None
           env_engine_down).
  reflexivity.
Defined.

Lemma default_message_names_step_witness :
  let a := with_current_step (session "tidy the logs" 10) 3 in
  let a' := fst (__call__ a None env_primed) in
  continuation_message a' =
    "Continue working on the objective. This is step 4 of 10." /\
  contains "step 4 of 10" (continuation_message a') /\
  snd (__call__ a None env_primed) =
    external (Agent_call (system_prompt a') (continuation_message a')) env_primed.
Proof.
  cbn zeta.
  destruct (default_message_names_step
              (with_current_step (session "tidy the logs" 10) 3) env_primed
              "tidy the logs" eq_refl eq_refl) as (Hcall & Hmsg & Hin).
  split; [exact Hmsg |]. split; [exact Hin | exact Hcall].
Defined.

Lemma construction_prompt_is_first_turn_prompt_witness :
  let a0 := session "tidy the logs" 10 in
  let a1 := fst (__call__ a0 (Some "begin") env_primed) in
  current_step a0 = 0 /\
  system_prompt a0 =
    get_meta_system_prompt "tidy the logs" 1 10 "remote" (Some tools_text) /\
  current_step a1 = 1 /\
  system_prompt a1 = system_prompt a0.
Proof.
  cbn zeta.
  assert (Hinit : __init__ "remote" (Some "tidy the logs") 10 None env_up =
                  (env_primed, inr (session "tidy the logs" 10)))
    by (vm_compute; reflexivity).
  destruct (construction_prompt_is_first_turn_prompt "remote" "tidy the logs" 10
              None env_up env_primed env_primed (session "tidy the logs" 10)
              (Some "begin") eq_refl Hinit)
    as (H0 & Hp0 & H1 & _ & Hp1).
  split; [exact H0 |]. split; [exact Hp0 |]. split; [exact H1 | exact Hp1].
Defined.

End Examples.

(** ** Texts, lines and containment *)

Module TextFacts.
Import Py.

Lemma append_nil_r (a : string) : a ++ EmptyString = a.
Proof.
  induction a as [| ch a IH]; cbn [append].
  - reflexivity.
  - rewrite IH. reflexivity.
Qed.

Lemma contains_refl (text : string) : contains text text.
Proof.
  exists EmptyString, EmptyString. cbn [append].
  rewrite append_nil_r. reflexivity.
Qed.

Lemma contains_prepend (needle before text : string) :
  contains needle text -> contains needle (before ++ text).
Proof.
  intros (b & a & ->). exists (before ++ b), a.
  rewrite AgentFacts.append_assoc. reflexivity.
Qed.

Lemma contains_extend (needle text after : string) :
  contains needle text -> contains needle (text ++ after).
Proof.
  intros (b & a & ->). exists b, (a ++ after).
  rewrite !AgentFacts.append_assoc. reflexivity.
Qed.

Lemma join_cons (sep x y : string) (rest : list string) :
  join sep (x :: y :: rest) = x ++ sep ++ join sep (y :: rest).
Proof. reflexivity. Qed.

(** A line of a joined text is a part of the text. *)
Lemma In_contains_join (sep x : string) (lines : list string) :
  In x lines -> contains x (join sep lines).
Proof.
  induction lines as [| y rest IH]; intros Hin.
  - destruct Hin.
  - destruct rest as [| z rest].
    + destruct Hin as [-> | []]. apply contains_refl.
    + rewrite join_cons. destruct Hin as [-> | Hin].
      * apply contains_extend, contains_refl.
      * apply contains_prepend, contains_prepend, IH, Hin.
Qed.

(** Two consecutive lines are, with the separator between them, a part of
    the joined text. *)
Lemma adjacent_contains_join (sep x y : string) (before after : list string) :
  contains (x ++ sep ++ y) (join sep (before ++ x :: y :: after)).
Proof.
  induction before as [| b before IH].
  - cbn [app]. rewrite join_cons.
    destruct after as [| z after].
    + apply contains_refl.
    + rewrite join_cons.
      exists EmptyString, (sep ++ join sep (z :: after)). cbn [append].
      rewrite !AgentFacts.append_assoc. reflexivity.
  - cbn [app].
    destruct (before ++ x :: y :: after)%list as [| c rest] eqn:Hrest.
    + destruct before; discriminate.
    + rewrite join_cons. apply contains_prepend, contains_prepend, IH.
Qed.

(** Joining a list in two parts. *)
Lemma join_app (sep x y : string) (first rest : list string) :
  join sep ((first ++ [x]) ++ y :: rest) =
  join sep (first ++ [x]) ++ sep ++ join sep (y :: rest).
Proof.
  induction first as [| b first IH].
  - reflexivity.
  - cbn [app].
    destruct (first ++ [x])%list as [| c l1] eqn:H1.
    + destruct first; discriminate.
    + cbn [app] in *. rewrite !join_cons, IH, !AgentFacts.append_assoc.
      reflexivity.
Qed.

Lemma substring_prefix (needle after : string) :
  substring 0 (String.length needle) (needle ++ after) = needle.
Proof.
  induction needle as [| ch needle IH]; cbn [String.length append substring].
  - destruct after; reflexivity.
  - rewrite IH. reflexivity.
Qed.

Lemma substring_middle (before needle after : string) :
  substring (String.length before) (String.length needle)
    (before ++ needle ++ after) = needle.
Proof.
  induction before as [| ch before IH]; cbn [String.length append].
  - apply substring_prefix.
  - cbn [substring]. exact IH.
Qed.

(** A text in which the search of the standard library finds no occurrence
    of the needle does not contain it. *)
Lemma not_contains_index (needle text : string) :
  needle <> EmptyString -> index 0 needle text = None -> ~ contains needle text.
Proof.
  intros Hne Hindex (before & after & ->).
  apply (index_correct3 0 (String.length before) needle _ Hindex Hne (Nat.le_0_l _)).
  apply substring_middle.
Qed.

End TextFacts.

(** ** More on the renderer *)

Module RendererMore.
Import Py prompts Measures TextFacts.

(** X1. With the budget fixed, a later step never has a lower urgency tier
    than an earlier one. *)
Theorem urgency_escalates (max_steps step1 step2 : Z) :
  step1 <= step2 ->
  tier_rank (urgency_of (remaining_of max_steps step1)) <=
  tier_rank (urgency_of (remaining_of max_steps step2)).
Proof.
  intros Hle. unfold remaining_of.
  destruct (PromptFacts.urgency_of_cases (max_steps - step1))
    as [[H1 ->] | [[H1 ->] | [H1 ->]]];
  destruct (PromptFacts.urgency_of_cases (max_steps - step2))
    as [[H2 ->] | [[H2 ->] | [H2 ->]]];
  cbn; lia.
Qed.

Lemma metacognitive_lines (o : string) (c m : Z) (st : string) (tools : option string)
    (x : string) :
  In x (metacognitive_framework_block c m (urgency_of (remaining_of m c))) ->
  In x (prompt_lines o c m st tools).
Proof.
  intros Hin. unfold prompt_lines. cbn zeta.
  do 4 (apply in_or_app; right; right).
  apply in_or_app. left. exact Hin.
Qed.

(** The step-budget section of every prompt names the tier and its advice. *)
Lemma guidance_line (o : string) (c m : Z) (st : string) (tools : option string) :
  let urgency := urgency_of (remaining_of m c) in
  contains ("- Urgency: " ++ urgency ++ " - " ++ urgency_guidance urgency)
    (get_meta_system_prompt o c m st tools).
Proof.
  cbn zeta. apply In_contains_join, metacognitive_lines.
  unfold metacognitive_framework_block. do 16 right. left. reflexivity.
Qed.

(** X2. The advice in the step-budget section of the prompt goes with the
    tier: finish at once below 3 remaining steps, balance from 3 to 6,
    explore from 7 on. *)
Theorem guidance_follows_remaining (o : string) (c m : Z) (st : string)
    (tools : option string) :
  let remaining := remaining_of m c in
  let prompt := get_meta_system_prompt o c m st tools in
  (remaining < 3 ->
   contains "- Urgency: HIGH - Complete core objectives immediately" prompt) /\
  (3 <= remaining < 7 ->
   contains "- Urgency: MEDIUM - Balance thoroughness with efficiency" prompt) /\
  (7 <= remaining ->
   contains "- Urgency: LOW - Explore comprehensively" prompt).
Proof.
  intros remaining prompt.
  pose proof (guidance_line o c m st tools) as Hline. cbn zeta in Hline.
  fold remaining prompt in Hline.
  destruct (PromptFacts.urgency_of_cases remaining)
    as [[H Hu] | [[H Hu] | [H Hu]]];
    rewrite Hu in Hline; repeat split; intros; try lia; exact Hline.
Qed.

(** X3. Without a tool inventory ([None] or the empty text) the mission
    block ends right after the memory line and the two prompts are the same
    text; with one, the inventory line stands between the memory line and
    the end of the block. *)
Theorem tools_line (o : string) (c m : Z) (st : string) (tools : option string) :
  let prompt := get_meta_system_prompt o c m st tools in
  (truthy tools = false ->
   prompt = get_meta_system_prompt o c m st None /\
   contains ("- Memory System: ENABLED" ++ nl ++ "</mission_parameters>") prompt) /\
  (forall t : string, tools = Some t -> truthy tools = true ->
   contains
     (("- Memory System: ENABLED" ++ nl ++ "- Available Tools: " ++ t)
        ++ nl ++ "</mission_parameters>") prompt).
Proof.
  cbn zeta. split.
  - intros Hfalse.
    assert (Hctx : tools_context_of tools = EmptyString).
    { unfold tools_context_of. destruct tools as [t |]; [| reflexivity].
      rewrite Hfalse. reflexivity. }
    assert (Hsame : prompt_lines o c m st tools = prompt_lines o c m st None).
    { unfold prompt_lines. cbn zeta. rewrite Hctx. reflexivity. }
    unfold get_meta_system_prompt. rewrite Hsame. split; [reflexivity |].
    exact (adjacent_contains_join nl "- Memory System: ENABLED" "</mission_parameters>"
             (role_block ++ EmptyString
                :: firstn 6 (mission_parameters_block o c m (remaining_of m c)
                               (urgency_of (remaining_of m c)) st EmptyString))
             _).
  - intros t -> Htrue.
    assert (Hctx : tools_context_of (Some t) = nl ++ "- Available Tools: " ++ t).
    { unfold tools_context_of. rewrite Htrue. reflexivity. }
    unfold get_meta_system_prompt, prompt_lines. cbn zeta. rewrite Hctx.
    exact (adjacent_contains_join nl
             ("- Memory System: ENABLED" ++ nl ++ "- Available Tools: " ++ t)
             "</mission_parameters>"
             (role_block ++ EmptyString
                :: firstn 6 (mission_parameters_block o c m (remaining_of m c)
                               (urgency_of (remaining_of m c)) st EmptyString))
             _).
Qed.


End RendererMore.

(** ** More on the agent *)

Module AgentMore.
Import Py prompts agent AgentFacts TextFacts.

Lemma join_app_nonempty (sep y : string) (first rest : list string) :
  first <> [] ->
  join sep (first ++ y :: rest) = join sep first ++ sep ++ join sep (y :: rest).
Proof.
  induction first as [| a first IH]; intros Hne; [contradiction |].
  destruct first as [| b first].
  - reflexivity.
  - cbn [app] in *. rewrite !join_cons, IH by discriminate.
    rewrite !append_assoc. reflexivity.
Qed.

(** Two agents with the same attributes are the same agent. *)
Lemma agent_eq (a b : MetaEverythingAgent) :
  server_type a = server_type b -> objective a = objective b ->
  max_steps a = max_steps b -> current_step a = current_step b ->
  tools_list a = tools_list b -> system_prompt a = system_prompt b ->
  created_tools a = created_tools b -> spawned_agents a = spawned_agents b ->
  learning_count a = learning_count b -> a = b.
Proof.
  destruct a, b. cbn. intros; subst. reflexivity.
Qed.

Section Driver.

Context {World Exc BaseExc Memory Result : Type}.
Context {collab : Collaborators World Exc BaseExc Memory Result}.

(** *** Construction *)

Lemma meta_tools_of_Some (extra : list Tool) :
  meta_tools_of (Some extra) = (meta_tools_of None ++ extra)%list.
Proof.
  unfold meta_tools_of. destruct extra as [| t extra]; cbn [truthy_list].
  - rewrite app_nil_r. reflexivity.
  - reflexivity.
Qed.

(** X5. The tool inventory of a session names the ten built-in tools in
    their order and then the caller's tools in theirs, separated by a comma
    and a space. *)
Theorem tool_inventory_order (st : string) (obj : option string) (M : Z)
    (first : Tool) (others : list Tool) (env0 env : Env World)
    (a0 : MetaEverythingAgent) :
  __init__ st obj M (Some (first :: others)) env0 = (env, inr a0) ->
  tools_list a0 =
    join ", " (map tool_label
                 [swarm; editor; load_tool; mem0_memory; think; python_repl;
                  http_request; shell; current_time; stop])
    ++ ", " ++ join ", " (map tool_label (first :: others)).
Proof.
  intros Hinit.
  pose proof (init_returns _ _ _ _ _ _ _ Hinit) as Ha0. cbn zeta in Ha0.
  rewrite Ha0. cbn [tools_list].
  rewrite meta_tools_of_Some, map_app.
  change (map tool_label (first :: others))
    with (tool_label first :: map tool_label others).
  apply join_app_nonempty. discriminate.
Qed.

(** X6. A session constructed without an objective ([None] or the empty
    text) gets the fixed default prompt and never consults the memory tool:
    the world is the one the base constructor left and nothing is logged. *)
Theorem init_without_objective (st : string) (obj : option string) (M : Z)
    (extra : option (list Tool)) (env0 : Env World) (w1 : World) :
  truthy obj = false ->
  Agent_init "You are MetaAgent, an adaptive AI system." (world env0) = (w1, inr tt) ->
  __init__ st obj M extra env0 =
  (mkEnv w1 (log env0),
   inr (mkAgent st obj M 0 (join ", " (map tool_label (meta_tools_of extra)))
          "You are MetaAgent, an adaptive AI system." [] [] 0)).
Proof.
  intros Hfalse Hinit.
  assert (Hwhen : forall (A : Type) (yes : string -> A) (no : A),
             when_truthy obj yes no = no).
  { intros A yes no. unfold when_truthy.
    destruct obj as [o |]; [rewrite Hfalse |]; reflexivity. }
  unfold __init__, bind, external.
  rewrite !Hwhen, Hinit. reflexivity.
Qed.

(** X7. When the memory tool answers during the construction of a session
    with an objective, the construction logs the number of memories found
    if there is at least one and logs nothing for [None] or an empty list;
    the agent is the same either way. *)
Theorem init_logs_found_memories (st o : string) (M : Z)
    (extra : option (list Tool)) (env0 : Env World) (w1 w2 : World)
    (memories : option (list Memory)) :
  truthy (Some o) = true ->
  Agent_init
    (get_meta_system_prompt o 1 M st
       (Some (join ", " (map tool_label (meta_tools_of extra)))))
    (world env0) = (w1, inr tt) ->
  mem0_memory_retrieve o "meta_agent" w1 = (w2, inr memories) ->
  let tools := join ", " (map tool_label (meta_tools_of extra)) in
  __init__ st (Some o) M extra env0 =
  (mkEnv w2
     (log env0 ++
      match memories with
      | Some (_ :: _) =>
          [(INFO, "Found " ++ str_of_int (len memories) ++ " relevant memories")]
      | _ => []
      end),
   inr (mkAgent st (Some o) M 0 tools
          (get_meta_system_prompt o 1 M st (Some tools)) [] [] 0)).
Proof.
  intros Hne Hinit Hmem tools.
  unfold __init__, bind, external. fold tools.
  rewrite (when_truthy_yes o _ _ Hne). fold tools in Hinit. rewrite Hinit.
  rewrite (when_truthy_yes o _ _ Hne).
  unfold _initialize_context, try_except_Exception, bind, external.
  cbn [world log]. rewrite Hmem.
  destruct memories as [[| mem rest] |]; cbn [truthy_list andb].
  - unfold ret. rewrite app_nil_r. reflexivity.
  - assert (Hpos : (0 <? len (Some (mem :: rest)))%Z = true).
    { apply Z.ltb_lt. unfold len. cbn [length]. lia. }
    rewrite Hpos. unfold logger_emit, ret. cbn [world log]. reflexivity.
  - unfold ret. rewrite app_nil_r. reflexivity.
Qed.

(** X8. When the base constructor raises, the construction raises the same
    object and the memory tool is not consulted: the world is the one the
    base constructor left and nothing is logged. *)
Theorem init_base_constructor_failure (st : string) (obj : option string) (M : Z)
    (extra : option (list Tool)) (env0 : Env World) (w1 : World)
    (r : raised Exc BaseExc) :
  let tools := join ", " (map tool_label (meta_tools_of extra)) in
  Agent_init
    (when_truthy obj
       (fun o => get_meta_system_prompt o 1 M st (Some tools))
       "You are MetaAgent, an adaptive AI system.")
    (world env0) = (w1, inl r) ->
  __init__ st obj M extra env0 = (mkEnv w1 (log env0), inl r).
Proof.
  intros tools Hinit.
  unfold __init__, bind, external. fold tools. rewrite Hinit. reflexivity.
Qed.

(** X9. [_initialize_context] never raises an [Exception]: it returns, or
    lets through what is not one; it only adds to the log, at most one
    record. *)
Theorem initialize_context_outcome (self : MetaEverythingAgent) (o : string)
    (env : Env World) :
  let env' := fst (_initialize_context self o env) in
  (snd (_initialize_context self o env) = inr tt \/
   exists b : BaseExc,
     snd (_initialize_context self o env) = inl (Raise_BaseException b)) /\
  exists added : list LogRecord,
    log env' = (log env ++ added)%list /\ (length added <= 1)%nat.
Proof.
  unfold _initialize_context, try_except_Exception, bind, external.
  destruct (mem0_memory_retrieve o "meta_agent" (world env))
    as [w [[e | b] | memories]]; cbn [fst snd].
  - split; [left; reflexivity |].
    exists [(WARNING, "Memory initialization failed: " ++ str_of_Exc e)].
    split; [reflexivity | cbn; lia].
  - split; [right; exists b; reflexivity |].
    exists []. split; [cbn [log]; rewrite app_nil_r; reflexivity | cbn; lia].
  - destruct (truthy_list memories && (0 <? len memories)%Z); cbn [fst snd].
    + split; [left; reflexivity |].
      exists [(INFO, "Found " ++ str_of_int (len memories) ++ " relevant memories")].
      split; [reflexivity | cbn; lia].
    + split; [left; reflexivity |].
      exists []. split; [cbn [log]; rewrite app_nil_r; reflexivity | cbn; lia].
Qed.

(** *** Turns *)

Lemma call_accumulators (self : MetaEverythingAgent) (message : option string)
    (env : Env World) :
  let self' := fst (__call__ self message env) in
  created_tools self' = created_tools self /\
  spawned_agents self' = spawned_agents self /\
  learning_count self' = learning_count self /\
  log (fst (snd (__call__ self message env))) = log env.
Proof.
  cbn zeta. rewrite call_outcome, call_self.
  destruct (refresh_frame (with_current_step self (current_step self + 1)))
    as (_ & _ & _ & _ & _ & Hc & Hs & Hl).
  rewrite Hc, Hs, Hl. cbn zeta. unfold external.
  destruct (Agent_call _ _ (world env)) as [w outcome].
  repeat split.
Qed.

Lemma turns_accumulators (self : MetaEverythingAgent) (env : Env World)
    (messages : list (option string)) :
  let self' := fst (turns self env messages) in
  created_tools self' = created_tools self /\
  spawned_agents self' = spawned_agents self /\
  learning_count self' = learning_count self /\
  log (snd (turns self env messages)) = log env.
Proof.
  revert self env.
  induction messages as [| m rest IH]; intros self env.
  - repeat split.
  - cbn [turns].
    pose proof (call_accumulators self m env) as Hcall. cbn zeta in Hcall.
    destruct (__call__ self m env) as [self1 [env1 outcome]].
    cbn [fst snd] in Hcall. destruct Hcall as (Hc & Hs & Hl & Hlog).
    specialize (IH self1 env1). cbn zeta in IH.
    destruct IH as (Ic & Is & Il & Ilog).
    cbn zeta. rewrite Ic, Is, Il, Ilog, Hc, Hs, Hl, Hlog.
    repeat split.
Qed.

(** X10. The driver never records a created tool, a spawned agent or a
    learning and never writes to the log: after [N] turns from construction
    the execution summary is [N] steps with empty lists and a zero count. *)
Theorem summary_after_turns (st : string) (obj : option string) (M : Z)
    (extra : option (list Tool)) (env0 env : Env World)
    (a0 : MetaEverythingAgent) (messages : list (option string)) :
  __init__ st obj M extra env0 = (env, inr a0) ->
  get_execution_summary (fst (turns a0 env messages)) =
    mkSummary (Z.of_nat (length messages)) [] [] 0 /\
  log (snd (turns a0 env messages)) = log env.
Proof.
  intros Hinit.
  pose proof (init_returns _ _ _ _ _ _ _ Hinit) as Ha0. cbn zeta in Ha0.
  destruct (turns_accumulators a0 env messages) as (Hc & Hs & Hl & Hlog).
  destruct (turns_frame a0 env messages) as (_ & _ & _ & Hstep & _).
  split; [| exact Hlog].
  unfold get_execution_summary. rewrite Hc, Hs, Hl, Hstep, Ha0.
  reflexivity.
Qed.

(** X11. What the base call returns is what the turn returns, in the world
    the base call left and with the log as it was. *)
Theorem turn_result_unmodified (self : MetaEverythingAgent)
    (message : option string) (env : Env World) (w' : World) (result : Result) :
  let self' := fst (__call__ self message env) in
  Agent_call (system_prompt self') (turn_message self' message) (world env)
    = (w', inr result) ->
  snd (__call__ self message env) = (mkEnv w' (log env), inr result).
Proof.
  intros self' Hret.
  rewrite call_outcome. fold self'. cbn zeta.
  unfold external. rewrite Hret. reflexivity.
Qed.

Lemma refresh_falsy (self : MetaEverythingAgent) :
  truthy (objective self) = false -> refresh_system_prompt self = self.
Proof.
  intros Hfalse. unfold refresh_system_prompt, when_truthy.
  destruct (objective self) as [o |]; [rewrite Hfalse |]; reflexivity.
Qed.

Lemma turns_prompt_falsy (self : MetaEverythingAgent) (env : Env World)
    (messages : list (option string)) :
  truthy (objective self) = false ->
  system_prompt (fst (turns self env messages)) = system_prompt self.
Proof.
  revert self env.
  induction messages as [| m rest IH]; intros self env Hfalse; [reflexivity |].
  cbn [turns].
  pose proof (call_self self m env) as Hself.
  destruct (__call__ self m env) as [self1 [env1 outcome]].
  cbn [fst] in Hself.
  rewrite refresh_falsy in Hself by exact Hfalse.
  rewrite (IH self1 env1); rewrite Hself; [reflexivity | exact Hfalse].
Qed.

(** X12. A session without an objective keeps its system prompt through
    every turn, and a turn called without a message hands the base call the
    greeting. *)
Theorem no_objective_session (self : MetaEverythingAgent) (env : Env World)
    (messages : list (option string)) :
  truthy (objective self) = false ->
  system_prompt (fst (turns self env messages)) = system_prompt self /\
  snd (__call__ self None env) =
    external (Agent_call (system_prompt self) "How can I help you today?") env.
Proof.
  intros Hfalse. split.
  - apply turns_prompt_falsy, Hfalse.
  - rewrite call_outcome, call_self.
    rewrite refresh_falsy by exact Hfalse.
    cbn zeta. unfold turn_message, when_truthy.
    cbn [objective with_current_step system_prompt].
    destruct (objective self) as [o |]; [rewrite Hfalse |]; reflexivity.
Qed.

Lemma turns_prompt_from (a0 : MetaEverythingAgent) (env : Env World) (o : string)
    (messages : list (option string)) :
  objective a0 = Some o -> truthy (Some o) = true -> current_step a0 = 0 ->
  system_prompt a0 =
    get_meta_system_prompt o 1 (max_steps a0) (server_type a0) (Some (tools_list a0)) ->
  system_prompt (fst (turns a0 env messages)) =
    get_meta_system_prompt o
      (Z.max 1 (Z.min (Z.of_nat (length messages)) (max_steps a0)))
      (max_steps a0) (server_type a0) (Some (tools_list a0)).
Proof.
  intros Hobj Hne H0 Hp0.
  induction messages as [| m first IH] using rev_ind.
  - cbn [turns fst length]. rewrite Hp0.
    replace (Z.max 1 (Z.min (Z.of_nat 0) (max_steps a0))) with 1 by lia.
    reflexivity.
  - rewrite turns_last.
    destruct (turns_frame a0 env first) as (Ps & Po & Pm & Pc & Pt).
    set (prev := fst (turns a0 env first)) in *.
    rewrite (call_system_prompt prev m _ o); [| congruence | exact Hne].
    rewrite Ps, Pm, Pc, Pt, H0, length_app. cbn [length].
    destruct (Z.leb_spec (0 + Z.of_nat (length first) + 1) (max_steps a0))
      as [Hle | Hgt].
    + f_equal. lia.
    + rewrite IH. f_equal. lia.
Qed.

Lemma constructed_prompt (st o : string) (M : Z) (extra : option (list Tool))
    (env0 env : Env World) (a0 : MetaEverythingAgent)
    (messages : list (option string)) :
  truthy (Some o) = true ->
  __init__ st (Some o) M extra env0 = (env, inr a0) ->
  system_prompt (fst (turns a0 env messages)) =
    get_meta_system_prompt o (Z.max 1 (Z.min (Z.of_nat (length messages)) M)) M st
      (Some (tools_list a0)).
Proof.
  intros Hne Hinit.
  pose proof (init_returns _ _ _ _ _ _ _ Hinit) as Ha0. cbn zeta in Ha0.
  rewrite (when_truthy_yes o _ _ Hne) in Ha0.
  assert (Hobj : objective a0 = Some o) by (rewrite Ha0; reflexivity).
  assert (H0 : current_step a0 = 0) by (rewrite Ha0; reflexivity).
  assert (HM : max_steps a0 = M) by (rewrite Ha0; reflexivity).
  assert (Hst : server_type a0 = st) by (rewrite Ha0; reflexivity).
  assert (Hp0 : system_prompt a0 =
                get_meta_system_prompt o 1 (max_steps a0) (server_type a0)
                  (Some (tools_list a0))) by (rewrite Ha0; reflexivity).
  rewrite (turns_prompt_from a0 env o messages Hobj Hne H0 Hp0), HM, Hst.
  reflexivity.
Qed.

(** X13. After [N] turns from the construction of a session with an
    objective, the system prompt is the one rendered for step [N] while
    [1 <= N <= max_steps], for step 1 before the first turn or when
    [max_steps] is below 1, and for step [max_steps] once the budget is
    used up. *)
Theorem prompt_after_turns (st o : string) (M : Z) (extra : option (list Tool))
    (env0 env : Env World) (a0 : MetaEverythingAgent)
    (messages : list (option string)) :
  truthy (Some o) = true ->
  __init__ st (Some o) M extra env0 = (env, inr a0) ->
  let N := Z.of_nat (length messages) in
  let prompt := system_prompt (fst (turns a0 env messages)) in
  let render step := get_meta_system_prompt o step M st (Some (tools_list a0)) in
  (1 <= N <= M -> prompt = render N) /\
  (N = 0 \/ M < 1 -> prompt = render 1) /\
  (1 <= M < N -> prompt = render M).
Proof.
  intros Hne Hinit N prompt render.
  unfold prompt. rewrite (constructed_prompt st o M extra env0 env a0 messages Hne Hinit).
  fold N. unfold render.
  repeat split; intros H; f_equal; lia.
Qed.

(** X14. Once more turns were invoked than [max_steps], the system prompt in
    force shows the urgency tier HIGH. *)
Theorem over_budget_prompt_high (st o : string) (M : Z)
    (extra : option (list Tool)) (env0 env : Env World)
    (a0 : MetaEverythingAgent) (messages : list (option string)) :
  truthy (Some o) = true ->
  __init__ st (Some o) M extra env0 = (env, inr a0) ->
  M < Z.of_nat (length messages) ->
  contains "- Urgency Level: HIGH" (system_prompt (fst (turns a0 env messages))).
Proof.
  intros Hne Hinit Hover.
  rewrite (constructed_prompt st o M extra env0 env a0 messages Hne Hinit).
  set (step := Z.max 1 (Z.min (Z.of_nat (length messages)) M)).
  destruct (PromptFacts.prompt_lines_mission o step M st (Some (tools_list a0)))
    as [_ Hline].
  destruct (PromptFacts.urgency_of_cases (remaining_of M step))
    as [[_ Hu] | [[H _] | [H _]]]; unfold remaining_of in *; try lia.
  cbn zeta in Hline. unfold remaining_of in Hline. rewrite Hu in Hline.
  apply In_contains_join. exact Hline.
Qed.

(** X15. From any state a session reached by turns, [reset] followed by a
    turn gives the agent that the first turn after construction gives. *)
Theorem reset_then_turn_is_first_turn (st : string) (obj : option string) (M : Z)
    (extra : option (list Tool)) (env0 env env1 env2 : Env World)
    (a0 : MetaEverythingAgent) (messages : list (option string))
    (m1 m2 : option string) :
  __init__ st obj M extra env0 = (env, inr a0) ->
  fst (__call__ (reset (fst (turns a0 env messages))) m1 env1) =
  fst (__call__ a0 m2 env2).
Proof.
  intros Hinit.
  pose proof (init_returns _ _ _ _ _ _ _ Hinit) as Ha0. cbn zeta in Ha0.
  set (a := fst (turns a0 env messages)).
  destruct (turns_frame a0 env messages) as (Fs & Fo & Fm & _ & Ft).
  fold a in Fs, Fo, Fm, Ft.
  assert (H0 : current_step a0 = 0) by (rewrite Ha0; reflexivity).
  assert (Hacc : created_tools a0 = [] /\ spawned_agents a0 = [] /\
                 learning_count a0 = 0) by (rewrite Ha0; repeat split).
  destruct Hacc as (Hc0 & Hs0 & Hl0).
  destruct (call_frame (reset a) m1 env1) as (Rs & Ro & Rm & Rc & Rt).
  destruct (call_frame a0 m2 env2) as (Is & Io & Im & Ic & It).
  destruct (call_accumulators (reset a) m1 env1) as (Rct & Rsa & Rlc & _).
  destruct (call_accumulators a0 m2 env2) as (Ict & Isa & Ilc & _).
  apply agent_eq.
  - rewrite Rs, Is. exact Fs.
  - rewrite Ro, Io. exact Fo.
  - rewrite Rm, Im. exact Fm.
  - rewrite Rc, Ic, H0. reflexivity.
  - rewrite Rt, It. exact Ft.
  - destruct obj as [o |].
    + destruct (truthy (Some o)) eqn:Hne.
      * assert (Hobj0 : objective a0 = Some o) by (rewrite Ha0; reflexivity).
        rewrite (call_system_prompt (reset a) m1 env1 o);
          [| cbn [objective reset]; congruence | exact Hne].
        rewrite (call_system_prompt a0 m2 env2 o Hobj0 Hne).
        cbn [current_step max_steps server_type tools_list system_prompt reset].
        rewrite Fs, Fm, Ft, H0.
        destruct (0 + 1 <=? max_steps a0)%Z eqn:Hle; [reflexivity |].
        unfold a.
        rewrite (constructed_prompt st o M extra env0 env a0 messages Hne Hinit).
        apply Z.leb_gt in Hle.
        assert (HM : max_steps a0 = M) by (rewrite Ha0; reflexivity).
        replace (Z.max 1 (Z.min (Z.of_nat (length messages)) M)) with 1 by lia.
        rewrite Ha0. cbn [system_prompt tools_list].
        rewrite (when_truthy_yes o _ _ Hne). reflexivity.
      * assert (Hf0 : truthy (objective a0) = false) by (rewrite Ha0; exact Hne).
        assert (Hfr : truthy (objective (reset a)) = false)
          by (cbn [objective reset]; rewrite Fo; exact Hf0).
        rewrite !call_self, !refresh_falsy; try assumption.
        cbn [system_prompt with_current_step reset].
        exact (turns_prompt_falsy a0 env messages Hf0).
    + assert (Hf0 : truthy (objective a0) = false) by (rewrite Ha0; reflexivity).
      assert (Hfr : truthy (objective (reset a)) = false)
        by (cbn [objective reset]; rewrite Fo; exact Hf0).
      rewrite !call_self, !refresh_falsy; try assumption.
      cbn [system_prompt with_current_step reset].
      exact (turns_prompt_falsy a0 env messages Hf0).
  - rewrite Rct, Ict, Hc0. reflexivity.
  - rewrite Rsa, Isa, Hs0. reflexivity.
  - rewrite Rlc, Ilc, Hl0. reflexivity.
Qed.

(** C5, amended. After [N] turns from construction with [max_steps = M],
    the step counter is [N] and [max_steps - current_step] is [M - N],
    negative once [N] exceeds [M].  What the urgency classification is
    given is [M - N] on a turn with [1 <= N <= M] only: the prompt of that
    turn shows this remainder and its tier.  A turn with [N > M] classifies
    nothing and leaves the prompt of the turn before, which shows the
    remainder of the last rendering, and before the first turn the prompt
    is the one of construction, rendered for step 1.  With [M = 10], one
    turn gives step 1, remainder 9 and LOW; eight turns give step 8,
    remainder 2 and HIGH. *)
Theorem steps_and_remaining_after_turns (st : string) (obj : option string) (M : Z)
    (extra : option (list Tool)) (env0 env : Env World)
    (a0 : MetaEverythingAgent) (messages : list (option string)) :
  __init__ st obj M extra env0 = (env, inr a0) ->
  let a := fst (turns a0 env messages) in
  let N := Z.of_nat (length messages) in
  let shows remaining :=
    contains ("- Remaining Steps: " ++ str_of_int remaining) (system_prompt a) /\
    contains ("- Urgency Level: " ++ urgency_of remaining) (system_prompt a) in
  current_step a = N /\
  max_steps a - current_step a = M - N /\
  (forall o : string, obj = Some o -> truthy (Some o) = true ->
     (1 <= N <= M ->
      system_prompt a = get_meta_system_prompt o N M st (Some (tools_list a)) /\
      shows (M - N)) /\
     (M < N ->
      shows (M - Z.max 1 M) /\
      forall (first : list (option string)) (last : option string),
        messages = (first ++ [last])%list ->
        system_prompt a = system_prompt (fst (turns a0 env first))) /\
     (N = 0 -> shows (M - 1)) /\
     (M = 10 -> N = 1 ->
      contains "- Remaining Steps: 9" (system_prompt a) /\
      contains "- Urgency Level: LOW" (system_prompt a)) /\
     (M = 10 -> N = 8 ->
      contains "- Remaining Steps: 2" (system_prompt a) /\
      contains "- Urgency Level: HIGH" (system_prompt a))) /\
  (M = 10 -> N = 1 ->
   current_step a = 1 /\ max_steps a - current_step a = 9 /\
   urgency_of (max_steps a - current_step a) = "LOW") /\
  (M = 10 -> N = 8 ->
   current_step a = 8 /\ max_steps a - current_step a = 2 /\
   urgency_of (max_steps a - current_step a) = "HIGH").
Proof.
  intros Hinit a N shows.
  pose proof (init_returns _ _ _ _ _ _ _ Hinit) as Ha0. cbn zeta in Ha0.
  assert (H0 : current_step a0 = 0) by (rewrite Ha0; reflexivity).
  assert (HM : max_steps a0 = M) by (rewrite Ha0; reflexivity).
  destruct (turns_frame a0 env messages) as (_ & _ & Fm & Fc & Ft).
  fold a in Fm, Fc, Ft. fold N in Fc.
  assert (Hstep : current_step a = N) by lia.
  assert (Hrem : max_steps a - current_step a = M - N) by lia.
  split; [exact Hstep |]. split; [exact Hrem |]. split; [| split].
  - intros o -> Hne.
    pose proof (constructed_prompt st o M extra env0 env a0 messages Hne Hinit)
      as Hprompt. fold a N in Hprompt.
    assert (Hshows : forall step : Z,
               Z.max 1 (Z.min N M) = step -> shows (M - step)).
    { intros step Hstep'. unfold shows. rewrite Hprompt, Hstep'.
      destruct (PromptFacts.prompt_lines_mission o step M st (Some (tools_list a0)))
        as (Hl1 & Hl2).
      split; apply In_contains_join; assumption. }
    split; [| split; [| split; [| split]]].
    + intros Hrange. split.
      * rewrite Hprompt, Ft. f_equal. lia.
      * apply Hshows. lia.
    + intros Hover. split.
      * apply Hshows. lia.
      * intros first last Hsplit.
        unfold a. rewrite Hsplit, turns_last.
        destruct (turns_frame a0 env first) as (_ & Po & Pm & Pc & _).
        set (prev := fst (turns a0 env first)) in *.
        assert (Hobj0 : objective a0 = Some o) by (rewrite Ha0; reflexivity).
        rewrite (call_system_prompt prev last _ o); [| congruence | exact Hne].
        assert (HN : N = Z.of_nat (length first) + 1).
        { unfold N. rewrite Hsplit, length_app. cbn [length]. lia. }
        destruct (Z.leb_spec (current_step prev + 1) (max_steps prev)) as [Hle | _];
          [lia | reflexivity].
    + intros HN0. apply Hshows. lia.
    + intros HM10 HN1.
      destruct (Hshows 1) as (Hs1 & Hs2); [lia |].
      rewrite HM10 in Hs1, Hs2. split; assumption.
    + intros HM10 HN8.
      destruct (Hshows 8) as (Hs1 & Hs2); [lia |].
      rewrite HM10 in Hs1, Hs2. split; assumption.
  - intros HM10 HN1. rewrite Hrem, Hstep, HM10, HN1. repeat split.
  - intros HM10 HN8. rewrite Hrem, Hstep, HM10, HN8. repeat split.
Qed.

End Driver.

End AgentMore.

(** ** The model configuration *)

Module ConfigFacts.
Import Py configuration main.

(** X16. The configuration turns interleaved thinking on exactly when the
    server type is not "local", thinking was asked for and the model in
    use, the given one or the Bedrock default, is one of the thinking
    models. *)
Theorem thinking_configuration (model_id : option string) (server_type : string)
    (thinking : bool) (OLLAMA_HOST : option string) :
  has_thinking (model_config_of model_id server_type thinking OLLAMA_HOST) = true <->
  (server_type =? "local") = false /\ thinking = true /\
  is_thinking_model (or_default model_id DEFAULT_BEDROCK_MODEL) = true.
Proof.
  unfold model_config_of.
  destruct (server_type =? "local"); cbn zeta.
  - cbn [has_thinking]. split; [discriminate | intros (H & _); discriminate].
  - destruct (is_thinking_model (or_default model_id DEFAULT_BEDROCK_MODEL));
      destruct thinking; cbn [andb has_thinking];
      split; try discriminate; try (intros (_ & H1 & H2); discriminate);
      intros _; repeat split.
Qed.

(** X17. For the two server types the command line admits, the model [main]
    displays is the model the agent is configured with. *)
Theorem display_model_is_configured (args : Args) (OLLAMA_HOST : option string) :
  arg_server args = "remote" \/ arg_server args = "local" ->
  configured_model
    (model_config_of (arg_model args) (arg_server args)
       (negb (arg_no_thinking args)) OLLAMA_HOST) = display_model args.
Proof.
  unfold display_model, model_config_of.
  intros [-> | ->]; cbn [String.eqb Ascii.eqb Bool.eqb andb]; cbn zeta.
  - destruct (is_thinking_model (or_default (arg_model args) DEFAULT_BEDROCK_MODEL)
              && negb (arg_no_thinking args)); reflexivity.
  - reflexivity.
Qed.

(** X18. For the two server types the command line admits, the banner of
    [main] says "Thinking: Enabled" whenever the configuration has thinking
    on, and the configuration has it on exactly when the banner says so and
    the displayed model is one of the thinking models. *)
Theorem thinking_display (args : Args) (OLLAMA_HOST : option string) :
  arg_server args = "remote" \/ arg_server args = "local" ->
  has_thinking
    (model_config_of (arg_model args) (arg_server args)
       (negb (arg_no_thinking args)) OLLAMA_HOST) = true <->
  nth_error (banner args) 5 = Some "Thinking: Enabled" /\
  is_thinking_model (display_model args) = true.
Proof.
  intros Hserver.
  unfold model_config_of, banner, display_model. cbn [nth_error].
  destruct Hserver as [-> | ->]; cbn [String.eqb Ascii.eqb Bool.eqb andb];
    cbn zeta.
  - destruct (is_thinking_model (or_default (arg_model args) DEFAULT_BEDROCK_MODEL));
      destruct (arg_no_thinking args); cbn [negb andb has_thinking];
      split; try discriminate; try (intros (H1 & H2); discriminate);
      intros _; repeat split.
  - rewrite andb_false_r. cbn [has_thinking].
    split; [discriminate | intros (H & _); discriminate].
Qed.

End ConfigFacts.

(** ** [main] *)

Module MainFacts.
Import Py prompts agent configuration main AgentFacts AgentMore.

Section Main.

Context {World Exc BaseExc Memory Result : Type}.
Context {collab : Collaborators World Exc BaseExc Memory Result}.
Context {main_collab : MainCollaborators World Exc BaseExc Result}.

Lemma in_env_inv {A : Type} (c : M A) (p p' : Process World)
    (r : raised Exc BaseExc + A) :
  in_env c p = (p', r) ->
  c (env p) = (env p', r) /\ stdout p' = stdout p /\ main_log p' = main_log p.
Proof.
  unfold in_env. destruct (c (env p)) as [e r0].
  intros H; inversion H; subst. repeat split.
Qed.

Lemma agent_turn_inv (self : MetaEverythingAgent) (message : option string)
    (p p' : Process World) (r : raised Exc BaseExc + MetaEverythingAgent * Result) :
  agent_turn self message p = (p', r) ->
  stdout p' = stdout p /\ main_log p' = main_log p /\
  env p' = fst (snd (__call__ self message (env p))) /\
  forall (self' : MetaEverythingAgent) (result : Result),
    r = inr (self', result) -> self' = fst (__call__ self message (env p)).
Proof.
  unfold agent_turn.
  destruct (__call__ self message (env p)) as [self1 [e outcome]].
  intros H; inversion H; subst. cbn [fst snd stdout main_log env].
  repeat split.
  destruct outcome as [x | result1]; intros self' result Heq; inversion Heq.
  reflexivity.
Qed.

(** The summary after the first turn of a fresh session. *)
Lemma first_turn_summary (st : string) (obj : option string) (M : Z)
    (extra : option (list Tool)) (env0 env env' : Env World)
    (a0 : MetaEverythingAgent) (message : option string) :
  __init__ st obj M extra env0 = (env, inr a0) ->
  get_execution_summary (fst (__call__ a0 message env')) = mkSummary 1 [] [] 0.
Proof.
  intros Hinit.
  pose proof (init_returns _ _ _ _ _ _ _ Hinit) as Ha0. cbn zeta in Ha0.
  destruct (call_frame a0 message env') as (_ & _ & _ & Hstep & _).
  destruct (call_accumulators a0 message env') as (Hc & Hs & Hl & _).
  unfold get_execution_summary. rewrite Hstep, Hc, Hs, Hl, Ha0. reflexivity.
Qed.



Lemma agent_turn_returned (self self' : MetaEverythingAgent)
    (message : option string) (p p' : Process World) (result : Result) :
  agent_turn self message p = (p', inr (self', result)) ->
  __call__ self message (env p) = (self', (env p', inr result)) /\
  stdout p' = stdout p.
Proof.
  unfold agent_turn.
  destruct (__call__ self message (env p)) as [self1 [e [x | result1]]];
    intros H; inversion H; subst.
  split; reflexivity.
Qed.

(** A run of the body of the [try] that returns: the memory step, the
    construction and the one turn it went through, and what it printed. *)
Lemma main_try_returned (args : Args) (p p' : Process World) :
  main_try args p = (p', inr tt) ->
  let working := nl ++ "Meta-Everything Agent is working..." ++ nl in
  exists (e1 e2 : Env World) (a0 : MetaEverythingAgent) (result : Result),
    (if arg_no_memory args then e1 = env p
     else
       initialize_memory_system
         (if truthy (arg_memory_path args) then arg_memory_path args else None)
         (world (env p)) = (world e1, inr tt) /\
       log e1 = log (env p)) /\
    __init__ (arg_server args) (Some (arg_objective args)) (arg_steps args) None e1
      = (e2, inr a0) /\
    snd (__call__ a0 (Some (initial_message args)) e2) = (env p', inr result) /\
    stdout p' =
      (stdout p ++ banner args ++ [working]
         ++ report (mkSummary 1 [] [] 0)
         ++ (if truthy_Result result
             then [ "Final Result:"; repeat_text "-" 60; str_of_Result result;
                    repeat_text "-" 60 ]
             else []))%list.
Proof.
  intros Hrun. cbn zeta. unfold main_try, pbind in Hrun.
  destruct ((if negb (arg_no_memory args)
             then in_env (external (initialize_memory_system
                    (if truthy (arg_memory_path args) then arg_memory_path args
                     else None)))
             else pret tt) p) as [p1 [r1 | []]] eqn:H1; [discriminate |].
  assert (S1 : stdout p1 = stdout p /\
               if arg_no_memory args then env p1 = env p
               else
                 initialize_memory_system
                   (if truthy (arg_memory_path args) then arg_memory_path args
                    else None)
                   (world (env p)) = (world (env p1), inr tt) /\
                 log (env p1) = log (env p)).
  { destruct (arg_no_memory args); cbn [negb] in H1.
    - inversion H1. split; reflexivity.
    - apply in_env_inv in H1. destruct H1 as (Hext & Hout & _).
      split; [exact Hout |].
      unfold external in Hext.
      destruct (initialize_memory_system _ (world (env p))) as [w r] eqn:Hmem.
      assert (Henv : env p1 = mkEnv w (log (env p))) by congruence.
      assert (Hr : r = inr tt) by congruence.
      rewrite Henv, Hr. split; reflexivity. }
  destruct S1 as (S1 & Hmemory).
  unfold main_emit at 1 in Hrun. cbv beta iota in Hrun.
  match type of Hrun with
  | context [in_env ?c ?q] =>
      destruct (in_env c q) as [p2 [r2 | a0]] eqn:H2; [discriminate |]
  end.
  apply in_env_inv in H2. destruct H2 as (Hinit & S2 & _).
  cbn [stdout env] in S2, Hinit.
  unfold main_emit at 1, print_all at 1, print at 1 in Hrun.
  cbv beta iota in Hrun.
  match type of Hrun with
  | context [agent_turn ?a ?m ?q] =>
      destruct (agent_turn a m q) as [p3 [r3 | [a1 result]]] eqn:H3;
        [discriminate |]
  end.
  apply agent_turn_returned in H3. destruct H3 as (Hcall & S3).
  cbn [stdout env] in S3, Hcall.
  assert (Hsum : get_execution_summary a1 = mkSummary 1 [] [] 0).
  { replace a1 with (fst (__call__ a0 (Some (initial_message args)) (env p2)))
      by (rewrite Hcall; reflexivity).
    eapply first_turn_summary. exact Hinit. }
  rewrite Hsum in Hrun.
  exists (env p1), (env p2), a0, result.
  split; [exact Hmemory |]. split; [exact Hinit |].
  unfold print_all, pret in Hrun. cbv beta iota in Hrun.
  destruct (truthy_Result result); inversion Hrun; subst; cbn [stdout env].
  - split; [rewrite Hcall; reflexivity |].
    rewrite S3, S2, S1, <- !app_assoc. reflexivity.
  - split; [rewrite Hcall; reflexivity |].
    rewrite S3, S2, S1, app_nil_r, <- !app_assoc. reflexivity.
Qed.

(** X19. Whenever [main] returns, it went through the construction of the
    agent and one turn with the initial message, and it has printed the
    banner, the working line and a report of exactly one step taken, no
    tool created, no agent spawned and no learning stored, followed by the
    four prints of the final result exactly when the result of that turn
    is truthy. *)
Theorem main_reports_one_step (args : Args) (p : Process World) :
  let working := nl ++ "Meta-Everything Agent is working..." ++ nl in
  snd (main args p) = Returned ->
  exists (e1 e2 : Env World) (a0 : MetaEverythingAgent) (result : Result),
    (if arg_no_memory args then e1 = env p
     else
       initialize_memory_system
         (if truthy (arg_memory_path args) then arg_memory_path args else None)
         (world (env p)) = (world e1, inr tt) /\
       log e1 = log (env p)) /\
    __init__ (arg_server args) (Some (arg_objective args)) (arg_steps args) None e1
      = (e2, inr a0) /\
    snd (__call__ a0 (Some (initial_message args)) e2)
      = (env (fst (main args p)), inr result) /\
    stdout (fst (main args p)) =
      (stdout p ++ banner args ++ [working]
         ++ report (mkSummary 1 [] [] 0)
         ++ (if truthy_Result result
             then [ "Final Result:"; repeat_text "-" 60; str_of_Result result;
                    repeat_text "-" 60 ]
             else []))%list.
Proof.
  cbn zeta.
  destruct (main args p) as [pf finish] eqn:Hmain. cbn [fst snd].
  unfold main in Hmain. cbn zeta in Hmain.
  match type of Hmain with
  | context [main_try args ?q] =>
      destruct (main_try args q) as [p' [r | []]] eqn:Hrun
  end.
  - destruct r as [e | b]; [| destruct (is_KeyboardInterrupt b)];
      inversion Hmain; subst; discriminate.
  - inversion Hmain; subst. intros _.
    apply main_try_returned in Hrun. cbn zeta in Hrun.
    cbn [env stdout setup_logging] in Hrun. exact Hrun.
Qed.


(** The construction of a session with an objective, once the base
    constructor has returned: the memory step decides the outcome. *)
Lemma init_after_base (st o : string) (M : Z) (extra : option (list Tool))
    (env0 : Env World) (w1 : World) :
  truthy (Some o) = true ->
  let tools := join ", " (map tool_label (meta_tools_of extra)) in
  let self :=
    mkAgent st (Some o) M 0 tools
      (get_meta_system_prompt o 1 M st (Some tools)) [] [] 0 in
  Agent_init (get_meta_system_prompt o 1 M st (Some tools)) (world env0)
    = (w1, inr tt) ->
  __init__ st (Some o) M extra env0 =
  (fst (_initialize_context self o (mkEnv w1 (log env0))),
   match snd (_initialize_context self o (mkEnv w1 (log env0))) with
   | inr _ => inr self
   | inl r => inl r
   end).
Proof.
  intros Hne tools self Hinit.
  unfold __init__, bind, external. fold tools.
  rewrite (when_truthy_yes o _ _ Hne), Hinit.
  rewrite (when_truthy_yes o _ _ Hne). fold self.
  destruct (_initialize_context self o (mkEnv w1 (log env0))) as [e [r | []]];
    reflexivity.
Qed.

(** X21. [--no-memory] only skips [initialize_memory_system]: the agent
    [main] constructs still consults the memory tool.  With the flag set
    and the store failing, the banner says "Memory: Disabled" and the log of
    the agent has the warning of the failed retrieval. *)
Theorem no_memory_flag_still_retrieves (args : Args) (p : Process World)
    (w1 w2 : World) (e : Exc) :
  arg_no_memory args = true ->
  truthy (Some (arg_objective args)) = true ->
  Agent_init
    (get_meta_system_prompt (arg_objective args) 1 (arg_steps args)
       (arg_server args)
       (Some (join ", " (map tool_label (meta_tools_of None)))))
    (world (env p)) = (w1, inr tt) ->
  mem0_memory_retrieve (arg_objective args) "meta_agent" w1
    = (w2, inl (Raise_Exception e)) ->
  let warning := (WARNING, "Memory initialization failed: " ++ str_of_Exc e) in
  In "Memory: Disabled" (stdout (fst (main args p))) /\
  log (env (fst (main args p))) = (log (env p) ++ [warning])%list.
Proof.
  intros Hflag Hobj Hinit Hmem warning. unfold warning.
  pose proof (init_after_base (arg_server args) (arg_objective args)
                (arg_steps args) None (env p) w1 Hobj Hinit) as Hcons.
  cbn zeta in Hcons.
  unfold _initialize_context at 1 2, try_except_Exception, bind, external in Hcons.
  cbn [world log] in Hcons. rewrite Hmem in Hcons.
  unfold logger_emit in Hcons. cbn [fst snd world log] in Hcons.
  assert (Hbanner : In "Memory: Disabled" (banner args)).
  { unfold banner. rewrite Hflag. cbn [negb]. do 6 right. left. reflexivity. }
  destruct (main args p) as [pf finish] eqn:Hmain. cbn [fst].
  unfold main in Hmain. cbn zeta in Hmain.
  unfold main_try, pbind in Hmain. rewrite Hflag in Hmain. cbn [negb] in Hmain.
  unfold pret at 1, main_emit at 1 in Hmain. cbv beta iota in Hmain.
  unfold in_env at 1 in Hmain. cbn [env setup_logging] in Hmain.
  rewrite Hcons in Hmain.
  unfold main_emit at 1, print_all at 1, print at 1 in Hmain.
  cbv beta iota in Hmain.
  cbn [env stdout main_log levels environ] in Hmain.
  match type of Hmain with
  | context [agent_turn ?a ?m ?q] =>
      destruct (agent_turn a m q) as [p3 [r3 | [a1 result]]] eqn:H3
  end.
  - apply agent_turn_inv in H3. destruct H3 as (S3 & _ & E3 & _).
    cbn [stdout env] in S3, E3.
    match type of E3 with
    | _ = fst (snd (__call__ ?a ?m ?q)) =>
        destruct (call_accumulators a m q) as (_ & _ & _ & Hlog)
    end.
    rewrite <- E3 in Hlog. cbn [log] in Hlog.
    assert (Hin : In "Memory: Disabled" (stdout p3)).
    { rewrite S3. apply in_or_app. left. apply in_or_app. right. exact Hbanner. }
    destruct r3 as [e3 | b3]; [| destruct (is_KeyboardInterrupt b3)];
      inversion Hmain; subst; cbn [fst main_emit stdout env]; split; assumption.
  - apply agent_turn_inv in H3. destruct H3 as (S3 & _ & E3 & _).
    cbn [stdout env] in S3, E3.
    match type of E3 with
    | _ = fst (snd (__call__ ?a ?m ?q)) =>
        destruct (call_accumulators a m q) as (_ & _ & _ & Hlog)
    end.
    rewrite <- E3 in Hlog. cbn [log] in Hlog.
    assert (Hin : In "Memory: Disabled" (stdout p3)).
    { rewrite S3. apply in_or_app. left. apply in_or_app. right. exact Hbanner. }
    unfold print_all, pret in Hmain. cbv beta iota in Hmain.
    destruct (truthy_Result result); inversion Hmain; subst;
      cbn [fst stdout env]; split;
      try assumption; repeat (apply in_or_app; left); exact Hin.
Qed.

End Main.

End MainFacts.

(** ** More worked examples on the scripted world *)

Module MoreExamples.
Import Py prompts agent configuration main Measures Fixture MainFixture.

Lemma urgency_escalates_witness :
  tier_rank (urgency_of (remaining_of 10 2)) <= tier_rank (urgency_of (remaining_of 10 5)) /\
  tier_rank (urgency_of (remaining_of 10 5)) <= tier_rank (urgency_of (remaining_of 10 9)).
Proof.
  split; apply RendererMore.urgency_escalates; lia.
Defined.

Lemma guidance_follows_remaining_witness :
  contains "- Urgency: HIGH - Complete core objectives immediately"
    (get_meta_system_prompt "tidy the logs" 9 10 "remote" None) /\
  contains "- Urgency: MEDIUM - Balance thoroughness with efficiency"
    (get_meta_system_prompt "tidy the logs" 5 10 "remote" None) /\
  contains "- Urgency: LOW - Explore comprehensively"
    (get_meta_system_prompt "tidy the logs" 1 10 "remote" None).
Proof.
  destruct (RendererMore.guidance_follows_remaining "tidy the logs" 9 10 "remote" None)
    as (Hhigh & _).
  destruct (RendererMore.guidance_follows_remaining "tidy the logs" 5 10 "remote" None)
    as (_ & Hmedium & _).
  destruct (RendererMore.guidance_follows_remaining "tidy the logs" 1 10 "remote" None)
    as (_ & _ & Hlow).
  split; [apply Hhigh; unfold remaining_of; lia |].
  split; [apply Hmedium; unfold remaining_of; lia |].
  apply Hlow; unfold remaining_of; lia.
Defined.

Lemma tools_line_witness :
  get_meta_system_prompt "tidy the logs" 1 10 "remote" (Some EmptyString) =
    get_meta_system_prompt "tidy the logs" 1 10 "remote" None /\
  contains
    (("- Memory System: ENABLED" ++ nl ++ "- Available Tools: shell, stop")
       ++ nl ++ "</mission_parameters>")
    (get_meta_system_prompt "tidy the logs" 1 10 "remote" (Some "shell, stop")).
Proof.
  destruct (RendererMore.tools_line "tidy the logs" 1 10 "remote" (Some EmptyString))
    as (Hnone & _).
  destruct (RendererMore.tools_line "tidy the logs" 1 10 "remote" (Some "shell, stop"))
    as (_ & Hsome).
  split.
  - apply Hnone. reflexivity.
  - apply (Hsome "shell, stop"); reflexivity.
Defined.


Lemma tool_inventory_order_witness :
  let extra := [named "calculator"; mkTool None "<function plot>"] in
  exists (env : Env World) (a0 : MetaEverythingAgent),
    __init__ "remote" (Some "tidy the logs") 10 (Some extra) env_up = (env, inr a0) /\
    tools_list a0 =
      "swarm, editor, load_tool, mem0_memory, think, python_repl, http_request, shell, current_time, stop, calculator, <function plot>".
Proof.
  cbn zeta.
  destruct (__init__ "remote" (Some "tidy the logs") 10
              (Some [named "calculator"; mkTool None "<function plot>"]) env_up)
    as [env [r | a0]] eqn:Hinit; [vm_compute in Hinit; discriminate |].
  exists env, a0. split; [reflexivity |].
  rewrite (AgentMore.tool_inventory_order _ _ _ _ _ _ _ _ Hinit).
  reflexivity.
Defined.

Lemma init_without_objective_witness :
  __init__ "remote" (Some EmptyString) 10 None env_store_down =
  (env_store_down,
   inr (mkAgent "remote" (Some EmptyString) 10 0 tools_text
          "You are MetaAgent, an adaptive AI system." [] [] 0)).
Proof.
  exact (AgentMore.init_without_objective "remote" (Some EmptyString) 10 None
           env_store_down (world env_store_down) eq_refl eq_refl).
Defined.

Lemma init_logs_found_memories_witness :
  __init__ "remote" (Some "tidy the logs") 10 None env_up =
  (env_primed, inr (session "tidy the logs" 10)).
Proof.
  exact (AgentMore.init_logs_found_memories "remote" "tidy the logs" 10 None
           env_up (world env_up) (world env_up) (Some ["use the editor first"])
           eq_refl eq_refl eq_refl).
Defined.

Lemma init_base_constructor_failure_witness :
  @__init__ _ _ _ _ _ FixtureDown.base_down "remote" (Some "tidy the logs") 10 None
    env_store_down =
  (env_store_down, inl (Raise_Exception "no credentials")).
Proof.
  exact (@AgentMore.init_base_constructor_failure _ _ _ _ _ FixtureDown.base_down
           "remote" (Some "tidy the logs") 10 None env_store_down
           (world env_store_down) (Raise_Exception "no credentials") eq_refl).
Defined.

Lemma summary_after_turns_witness :
  let run := turns (session "tidy the logs" 2) env_primed [None; Some "go on"; None] in
  get_execution_summary (fst run) = mkSummary 3 [] [] 0 /\
  log (snd run) = log env_primed.
Proof.
  cbn zeta.
  assert (Hinit : __init__ "remote" (Some "tidy the logs") 2 None env_up =
                  (env_primed, inr (session "tidy the logs" 2)))
    by (vm_compute; reflexivity).
  exact (AgentMore.summary_after_turns _ _ _ _ _ _ _ [None; Some "go on"; None] Hinit).
Defined.

Lemma turn_result_unmodified_witness :
  let a0 := session "tidy the logs" 10 in
  let a1 := fst (__call__ a0 (Some "begin") env_primed) in
  snd (__call__ a0 (Some "begin") env_primed) =
    (mkEnv (mkWorld true true [(system_prompt a1, "begin")]) (log env_primed),
     inr "done").
Proof.
  cbn zeta.
  apply (AgentMore.turn_result_unmodified (session "tidy the logs" 10) (Some "begin")
           env_primed).
  reflexivity.
Defined.

Lemma no_objective_session_witness :
  let a0 := mkAgent "remote" None 10 0 tools_text
              "You are MetaAgent, an adaptive AI system." [] [] 0 in
  system_prompt (fst (turns a0 env_up [None; Some "hello"; None])) =
    "You are MetaAgent, an adaptive AI system." /\
  snd (__call__ a0 None env_up) =
    external (Agent_call "You are MetaAgent, an adaptive AI system."
                "How can I help you today?") env_up.
Proof.
  cbn zeta.
  exact (AgentMore.no_objective_session
           (mkAgent "remote" None 10 0 tools_text
              "You are MetaAgent, an adaptive AI system." [] [] 0)
           env_up [None; Some "hello"; None] eq_refl).
Defined.

Lemma prompt_after_turns_witness :
  let a0 := session "tidy the logs" 2 in
  system_prompt (fst (turns a0 env_primed [None; None])) =
    get_meta_system_prompt "tidy the logs" 2 2 "remote" (Some tools_text) /\
  system_prompt (fst (turns a0 env_primed [])) =
    get_meta_system_prompt "tidy the logs" 1 2 "remote" (Some tools_text) /\
  system_prompt (fst (turns a0 env_primed [None; None; None; None])) =
    get_meta_system_prompt "tidy the logs" 2 2 "remote" (Some tools_text).
Proof.
  cbn zeta.
  assert (Hinit : __init__ "remote" (Some "tidy the logs") 2 None env_up =
                  (env_primed, inr (session "tidy the logs" 2)))
    by (vm_compute; reflexivity).
  destruct (AgentMore.prompt_after_turns "remote" "tidy the logs" 2 None env_up
              env_primed _ [None; None] eq_refl Hinit) as (Hin & _).
  destruct (AgentMore.prompt_after_turns "remote" "tidy the logs" 2 None env_up
              env_primed _ [] eq_refl Hinit) as (_ & Hstart & _).
  destruct (AgentMore.prompt_after_turns "remote" "tidy the logs" 2 None env_up
              env_primed _ [None; None; None; None] eq_refl Hinit) as (_ & _ & Hout).
  split; [apply Hin; cbn [length]; lia |].
  split; [apply Hstart; left; reflexivity |].
  apply Hout; cbn [length]; lia.
Defined.

Lemma over_budget_prompt_high_witness :
  contains "- Urgency Level: HIGH"
    (system_prompt
       (fst (turns (session "tidy the logs" 2) env_primed [None; None; None]))).
Proof.
  assert (Hinit : __init__ "remote" (Some "tidy the logs") 2 None env_up =
                  (env_primed, inr (session "tidy the logs" 2)))
    by (vm_compute; reflexivity).
  apply (AgentMore.over_budget_prompt_high "remote" "tidy the logs" 2 None env_up
           env_primed _ [None; None; None] eq_refl Hinit).
  cbn [length]. lia.
Defined.

Lemma reset_then_turn_is_first_turn_witness :
  let a0 := session "tidy the logs" 2 in
  let a3 := fst (turns a0 env_primed [None; None; None]) in
  fst (__call__ (reset a3) None env_engine_down) =
  fst (__call__ a0 (Some "begin") env_primed).
Proof.
  cbn zeta.
  assert (Hinit : __init__ "remote" (Some "tidy the logs") 2 None env_up =
                  (env_primed, inr (session "tidy the logs" 2)))
    by (vm_compute; reflexivity).
  exact (AgentMore.reset_then_turn_is_first_turn _ _ _ _ _ _ env_engine_down
           env_primed _ [None; None; None] None (Some "begin") Hinit).
Defined.

Lemma thinking_configuration_witness :
  has_thinking (model_config_of None "remote" true None) = true /\
  has_thinking (model_config_of (Some "some.other-model") "remote" true None) = false.
Proof.
  split.
  - apply ConfigFacts.thinking_configuration. repeat split.
  - destruct (has_thinking (model_config_of (Some "some.other-model") "remote" true None))
      eqn:H; [| reflexivity].
    apply ConfigFacts.thinking_configuration in H.
    destruct H as (_ & _ & H). vm_compute in H. discriminate.
Defined.

Lemma display_model_is_configured_witness :
  configured_model
    (model_config_of None "local" true (Some "http://gpu-box:11434")) = "llama3.2:3b" /\
  display_model (mkArgs "tidy the logs" None "local" 10 false None false false)
    = "llama3.2:3b".
Proof.
  pose proof (ConfigFacts.display_model_is_configured
                (mkArgs "tidy the logs" None "local" 10 false None false false)
                (Some "http://gpu-box:11434") (or_intror eq_refl)) as H.
  split; [reflexivity |]. rewrite <- H. reflexivity.
Defined.

Lemma thinking_display_witness :
  let args := mkArgs "tidy the logs" (Some "some.other-model") "remote" 10 false
                None false false in
  nth_error (banner args) 5 = Some "Thinking: Enabled" /\
  has_thinking (model_config_of (arg_model args) (arg_server args)
                  (negb (arg_no_thinking args)) None) = false.
Proof.
  cbn zeta. split; [reflexivity |].
  match goal with |- ?c = false => destruct c eqn:H; [| reflexivity] end.
  apply (ConfigFacts.thinking_display
           (mkArgs "tidy the logs" (Some "some.other-model") "remote" 10 false
              None false false) None (or_introl eq_refl)) in H.
  destruct H as (_ & H). vm_compute in H. discriminate.
Defined.

Lemma main_reports_one_step_witness :
  let run := main (plain_args "tidy the logs") (fresh env_up) in
  snd run = Returned /\
  In "Steps taken: 1" (stdout (fst run)) /\
  In "Tools created: 0" (stdout (fst run)) /\
  In "Learnings stored: 0" (stdout (fst run)).
Proof.
  cbn zeta.
  assert (Hret : snd (main (plain_args "tidy the logs") (fresh env_up)) = Returned)
    by (vm_compute; reflexivity).
  destruct (MainFacts.main_reports_one_step (plain_args "tidy the logs")
              (fresh env_up) Hret) as (e1 & e2 & a0 & result & _ & _ & _ & Hout).
  split; [exact Hret |]. rewrite Hout.
  repeat split; do 3 (apply in_or_app; right); apply in_or_app; left;
    vm_compute; repeat (first [left; reflexivity | right]).
Defined.


Lemma no_memory_flag_still_retrieves_witness :
  let args := mkArgs "tidy the logs" None "remote" 10 false None false true in
  let run := main args (fresh env_store_down) in
  In "Memory: Disabled" (stdout (fst run)) /\
  log (env (fst run)) =
    [(WARNING, "Memory initialization failed: store unavailable")].
Proof.
  cbn zeta.
  exact (MainFacts.no_memory_flag_still_retrieves
           (mkArgs "tidy the logs" None "remote" 10 false None false true)
           (fresh env_store_down) (world env_store_down) (world env_store_down)
           "store unavailable" eq_refl eq_refl eq_refl eq_refl).
Defined.

(** C5, counterexample. With [max_steps = 1], after two turns the counters
    give a remainder of -1, but the second turn classified nothing: the
    prompt in force is still the one of the first turn, which shows a
    remainder of 0 and nowhere a remainder of -1. *)
Lemma negative_remaining_not_classified :
  let a0 := session "tidy the logs" 1 in
  __init__ "remote" (Some "tidy the logs") 1 None env_up = (env_primed, inr a0) /\
  let a1 := fst (turns a0 env_primed [None]) in
  let a2 := fst (turns a0 env_primed [None; None]) in
  current_step a2 = 2 /\
  max_steps a2 - current_step a2 = -1 /\
  system_prompt a2 = system_prompt a1 /\
  contains "- Remaining Steps: 0" (system_prompt a2) /\
  ~ contains "- Remaining Steps: -1" (system_prompt a2).
Proof.
  cbn zeta.
  assert (Hprompt : system_prompt
                      (fst (turns (session "tidy the logs" 1) env_primed [None; None])) =
                    get_meta_system_prompt "tidy the logs" 1 1 "remote" (Some tools_text))
    by (vm_compute; reflexivity).
  split; [vm_compute; reflexivity |].
  split; [reflexivity |]. split; [reflexivity |].
  split; [vm_compute; reflexivity |]. split.
  - rewrite Hprompt. apply TextFacts.In_contains_join.
    exact (proj1 (PromptFacts.prompt_lines_mission "tidy the logs" 1 1 "remote"
                    (Some tools_text))).
  - apply TextFacts.not_contains_index; [discriminate |].
    vm_compute. reflexivity.
Qed.

Lemma steps_and_remaining_after_turns_witness :
  let eight := [None; None; None; None; None; None; None; None] in
  let a := fst (turns (session "tidy the logs" 10) env_primed eight) in
  current_step a = 8 /\
  max_steps a - current_step a = 2 /\
  system_prompt a =
    get_meta_system_prompt "tidy the logs" 8 10 "remote" (Some tools_text) /\
  contains "- Remaining Steps: 2" (system_prompt a) /\
  contains "- Urgency Level: HIGH" (system_prompt a).
Proof.
  cbn zeta.
  assert (Hinit : __init__ "remote" (Some "tidy the logs") 10 None env_up =
                  (env_primed, inr (session "tidy the logs" 10)))
    by (vm_compute; reflexivity).
  destruct (AgentMore.steps_and_remaining_after_turns "remote"
              (Some "tidy the logs") 10 None env_up env_primed
              (session "tidy the logs" 10)
              [None; None; None; None; None; None; None; None] Hinit)
    as (Hstep & Hrem & Hprompt & _).
  destruct (Hprompt "tidy the logs" eq_refl eq_refl)
    as (Hin & _ & _ & _ & Height).
  destruct Hin as (Hsp & _); [cbn [length]; lia |].
  destruct (Height eq_refl eq_refl) as (Hs1 & Hs2).
  split; [exact Hstep |]. split; [exact Hrem |]. split; [exact Hsp |].
  split; [exact Hs1 | exact Hs2].
Defined.

(** Two calls under different globals, one of which rebinds every name. *)
Example render_under_two_globals :
  prompts_ast.call_get_meta_system_prompt (fun _ => None)
    "tidy the logs" 4 10 "local" (Some "shell, stop") =
  prompts_ast.call_get_meta_system_prompt
    (fun _ => Some (prompts_ast.VStr "shadowed"))
    "tidy the logs" 4 10 "local" (Some "shell, stop").
Proof. vm_compute. reflexivity. Qed.

End MoreExamples.

(** ** The renderer and the globals *)

Module RenderFacts.
Import Py prompts prompts_ast TextFacts.

Lemma eval_JoinedStr (g : Globals) (locals : Scope) (values : list expr) :
  eval g locals (JoinedStr values) =
  match pieces g locals values with
  | Some l => Some (VStr (String.concat EmptyString l))
  | None => None
  end.
Proof.
  cbn [eval].
  match goal with
  | |- match ?f values with _ => _ end = _ =>
      assert (Hfix : forall vs, f vs = pieces g locals vs)
  end.
  { induction vs as [| v rest IH]; [reflexivity |].
    cbn [pieces]. rewrite <- IH. reflexivity. }
  rewrite Hfix. reflexivity.
Qed.

Lemma concat_cons (x : string) (rest : list string) :
  String.concat EmptyString (x :: rest) = x ++ String.concat EmptyString rest.
Proof.
  destruct rest as [| y rest]; cbn [String.concat].
  - rewrite append_nil_r. reflexivity.
  - reflexivity.
Qed.

Lemma concat_app (a b : list string) :
  String.concat EmptyString (a ++ b) =
  String.concat EmptyString a ++ String.concat EmptyString b.
Proof.
  induction a as [| x a IH].
  - reflexivity.
  - cbn [app]. rewrite !concat_cons, IH, AgentFacts.append_assoc. reflexivity.
Qed.

Lemma pieces_app (g : Globals) (locals : Scope) (a b : list expr) :
  pieces g locals (a ++ b) =
  match pieces g locals a, pieces g locals b with
  | Some x, Some y => Some (x ++ y)%list
  | _, _ => None
  end.
Proof.
  induction a as [| v a IH]; cbn [app pieces].
  - destruct (pieces g locals b); reflexivity.
  - rewrite IH.
    destruct (eval g locals v) as [[| | | s] |]; try reflexivity;
      destruct (pieces g locals a); try reflexivity;
      destruct (pieces g locals b); reflexivity.
Qed.

(** A multi-line f-string evaluates to its lines joined by line feeds. *)
Lemma eval_flatten_lines (g : Globals) (locals : Scope) (lines : list (list expr))
    (texts : list string) :
  render_lines g locals lines = Some texts ->
  eval g locals (JoinedStr (flatten_lines lines)) = Some (VStr (join nl texts)).
Proof.
  rewrite eval_JoinedStr.
  revert texts.
  induction lines as [| line rest IH]; intros texts Hrender.
  - inversion Hrender. reflexivity.
  - cbn [render_lines] in Hrender.
    destruct (pieces g locals line) as [pl |] eqn:Hline; [| discriminate].
    destruct (render_lines g locals rest) as [ls |] eqn:Hrest; [| discriminate].
    inversion Hrender; subst texts. clear Hrender.
    destruct rest as [| line2 rest].
    + cbn [flatten_lines]. rewrite Hline.
      inversion Hrest. reflexivity.
    + specialize (IH ls eq_refl).
      change (flatten_lines (line :: line2 :: rest))
        with (line ++ text nl :: flatten_lines (line2 :: rest))%list.
      rewrite pieces_app, Hline.
      change (pieces g locals (text nl :: flatten_lines (line2 :: rest)))
        with (match pieces g locals (flatten_lines (line2 :: rest)) with
              | Some l => Some (nl :: l)
              | None => None
              end).
      destruct (pieces g locals (flatten_lines (line2 :: rest))) as [p2 |];
        [| discriminate].
      inversion IH as [Hjoin].
      rewrite concat_app, concat_cons, Hjoin.
      destruct ls as [| t2 ls]; [cbn in Hrest; destruct (pieces g locals line2);
        [destruct (render_lines g locals rest) |]; discriminate |].
      rewrite join_cons. reflexivity.
Qed.

Lemma exec_block_cons (g : Globals) (s : stmt) (rest : list stmt) (locals : Scope) :
  exec_block g (s :: rest) locals =
  match exec g s locals with
  | Next locals' => exec_block g rest locals'
  | other => other
  end.
Proof. reflexivity. Qed.

(** The f-string of the [return], in a scope that holds the parameters and
    the four local variables. *)
Lemma render_template (g : Globals) (o : string) (c m r : Z)
    (st u cfg ctx : string) (tools : value) :
  u = "HIGH" \/ u = "MEDIUM" \/ u = "LOW" ->
  render_lines g
    [ ("tools_context", VStr ctx); ("swarm_config", VStr cfg);
      ("urgency", VStr u); ("remaining_steps", VInt r);
      ("objective", VStr o); ("current_step", VInt c); ("max_steps", VInt m);
      ("server_type", VStr st); ("tools_available", tools) ]
    template_lines =
  Some
    (role_block
     ++ EmptyString :: mission_parameters_block o c m r u st ctx
     ++ EmptyString :: cognitive_architecture_block
     ++ EmptyString :: meta_capabilities_block cfg
     ++ EmptyString :: metacognitive_framework_block c m u
     ++ EmptyString :: operational_protocols_block
     ++ EmptyString :: execution_patterns_block
     ++ EmptyString :: key_principles_block)%list.
Proof.
  intros [-> | [-> | ->]]; vm_compute; reflexivity.
Qed.

(** Under any globals, a call returns the text of the renderer. *)
Lemma call_returns_prompt (g : Globals) (o : string) (c m : Z) (st : string)
    (tools : option string) :
  call_get_meta_system_prompt g o c m st tools =
  Returns (VStr (get_meta_system_prompt o c m st tools)).
Proof.
  unfold call_get_meta_system_prompt, get_meta_system_prompt_body. cbn zeta.
  set (tv := match tools with Some t => VStr t | None => VNone end).
  (* line 26 *)
  rewrite exec_block_cons.
  change (exec g (Assign "remaining_steps" (Sub (Name "max_steps") (Name "current_step")))
            [("objective", VStr o); ("current_step", VInt c); ("max_steps", VInt m);
             ("server_type", VStr st); ("tools_available", tv)])
    with (Next [("remaining_steps", VInt (m - c));
                ("objective", VStr o); ("current_step", VInt c); ("max_steps", VInt m);
                ("server_type", VStr st); ("tools_available", tv)]).
  cbv beta iota.
  (* line 27 *)
  rewrite exec_block_cons.
  match goal with
  | |- context [exec g ?s ?l] =>
      assert (H27 : exec g s l = Next (("urgency", VStr (urgency_of (m - c))) :: l))
  end.
  { unfold urgency_of. simpl.
    destruct (m - c <? 3)%Z; [reflexivity |].
    destruct (m - c <? 7)%Z; reflexivity. }
  rewrite H27. cbv beta iota.
  (* lines 29-34 *)
  rewrite exec_block_cons.
  match goal with
  | |- context [exec g ?s ?l] =>
      assert (H29 : exec g s l = Next (("swarm_config", VStr (swarm_config_of st)) :: l))
  end.
  { unfold swarm_config_of. simpl.
    destruct (st =? "local"); reflexivity. }
  rewrite H29. cbv beta iota.
  (* line 36 *)
  rewrite exec_block_cons.
  match goal with
  | |- context [exec g ?s ?l] =>
      assert (H36 : exec g s l =
                    Next (("tools_context", VStr (tools_context_of tools)) :: l))
  end.
  { unfold tv. destruct tools as [[| ch t] |]; reflexivity. }
  rewrite H36. cbv beta iota.
  (* lines 38-233 *)
  rewrite exec_block_cons.
  change (exec g (Return (JoinedStr (flatten_lines template_lines))) ?l)
    with (match eval g l (JoinedStr (flatten_lines template_lines)) with
          | Some v => Returns v
          | None => Raises
          end).
  rewrite (eval_flatten_lines g _ template_lines
             (prompt_lines o c m st tools)).
  - reflexivity.
  - apply render_template.
    destruct (PromptFacts.urgency_of_cases (m - c)) as [[_ ->] | [[_ ->] | [_ ->]]];
      auto.
Qed.

(** C4. Two calls of the renderer with identical arguments return
    byte-identical texts, whatever the module globals and builtins are at
    each of the two calls: the body reads its five parameters and its own
    local variables only, and each call returns the text of
    [get_meta_system_prompt]. *)
Theorem render_deterministic (g1 g2 : Globals) (objective : string)
    (current_step max_steps : Z) (server_type : string)
    (tools_available : option string) :
  call_get_meta_system_prompt g1 objective current_step max_steps server_type
    tools_available =
  call_get_meta_system_prompt g2 objective current_step max_steps server_type
    tools_available /\
  call_get_meta_system_prompt g1 objective current_step max_steps server_type
    tools_available =
  Returns
    (VStr (get_meta_system_prompt objective current_step max_steps server_type
             tools_available)).
Proof.
  split.
  - rewrite !call_returns_prompt. reflexivity.
  - apply call_returns_prompt.
Qed.

End RenderFacts.
